(** * Kraken Futures websocket client: connection manager

    A shallow embedding of [kraken/futures/websocket/__init__.py]
    (class [ConnectFuturesWebsocket]) and of the challenge signer in
    [kraken/futures/ws_client/ws_client.py], together with the properties
    of the streaming connection manager that the specification states.

    Conventions of the embedding:
    - Python values that travel through the client are JSON values
      ([json]); a [dict] is a finite map from strings to values.
    - A Python [str] is represented by its UTF-8 text, a [bytes] object
      by the list of its bytes.
    - Python exceptions are values of [exn]; a computation that may raise
      returns a [res].
    - Coroutines are resumable step functions: one step runs the task from
      one suspension point ([await]) to the next. *)

From stdpp Require Import gmap strings list.
From Stdlib Require Import ZArith Lia Strings.Byte.

Set Warnings "-register-all".
Set Default Proof Using "Type".
Local Open Scope Z_scope.

(** ** Python values *)

(** The values produced by [json.loads].  JSON numbers are restricted to
    integers: floating-point frames are outside the embedding. *)
Inductive json :=
| JNull
| JBool (b : bool)
| JInt (z : Z)
| JStr (s : string)
| JArr (l : list json)
| JObj (m : gmap string json).

Global Instance json_inhabited : Inhabited json := populate JNull.

Global Instance json_eq_dec : EqDecision json.
Proof.
  refine (fix go (x y : json) {struct x} : Decision (x = y) :=
    let _ : EqDecision json := @go in
    match x, y with
    | JNull, JNull => left _
    | JBool a, JBool b => cast_if (decide (a = b))
    | JInt a, JInt b => cast_if (decide (a = b))
    | JStr a, JStr b => cast_if (decide (a = b))
    | JArr a, JArr b => cast_if (decide (a = b))
    | JObj a, JObj b => cast_if (decide (a = b))
    | _, _ => right _
    end); congruence.
Defined.

(** Python's [==] identifies [True] with [1] and [False] with [0]; on
    every other value of [json] it is structural.  [py_norm] picks the
    representative of a value's equality class. *)
Fixpoint py_norm (j : json) : json :=
  match j with
  | JBool b => JInt (if b then 1 else 0)
  | JArr l => JArr (py_norm <$> l)
  | JObj m => JObj (py_norm <$> m)
  | _ => j
  end.

(** [a == b] *)
Definition py_eqb (a b : json) : bool := bool_decide (py_norm a = py_norm b).

(** [x in l] for a Python list [l] *)
Definition py_in (x : json) (l : list json) : bool := existsb (py_eqb x) l.

(** [isinstance(x, list)] *)
Definition is_list (x : json) : bool :=
  match x with JArr _ => true | _ => false end.

(** ** Exceptions *)

Inductive exn :=
| MaxReconnectError
| ValueError (text : string)
| KeyError (key : string)
| TypeError
| AttributeError
| BinasciiError
| UnicodeDecodeError
| TransportError
| CancelledError.

Inductive res (A : Type) :=
| Ok (a : A)
| Raise (e : exn).
Arguments Ok {A} a.
Arguments Raise {A} e.

(** Sequencing [x ← r; k] stops at the first exception. *)
Global Instance res_ret : MRet res := λ A a, Ok a.
Global Instance res_bind : MBind res := λ A B k r,
  match r with Ok a => k a | Raise e => Raise e end.

(** [k in container] *)
Definition py_contains (container : json) (k : string) : res bool :=
  match container with
  | JObj m => Ok (bool_decide (is_Some (m !! k)))
  | JArr l => Ok (py_in (JStr k) l)
  | JStr s => Ok (match String.index 0 k s with Some _ => true | None => false end)
  | _ => Raise TypeError
  end.

(** [container[k]] for a string [k] *)
Definition py_getitem (container : json) (k : string) : res json :=
  match container with
  | JObj m => match m !! k with Some v => Ok v | None => Raise (KeyError k) end
  | _ => Raise TypeError
  end.

(** ** Backoff policy: [__get_reconnect_wait]

    [random()] returns a double [k / 2^53] with [0 <= k < 2^53].  The
    doubles that occur in the backoff computation are non-negative
    multiples of [2^-53] below [2^61 * 2^-53]; such a double is represented
    by its numerator, and an operation is the exact operation followed by
    rounding to a 53-bit significand, ties to even. *)
Module Float.

Definition one : Z := 2 ^ 53.

(** round half to even of [x / 2^s] *)
Definition div_half_even (x s : Z) : Z :=
  let q := x / 2 ^ s in
  let r := x mod 2 ^ s in
  let half := 2 ^ (s - 1) in
  if r <? half then q
  else if half <? r then q + 1
  else if Z.even q then q else q + 1.

(** nearest double of the exact value [x / 2^53] *)
Definition round53 (x : Z) : Z :=
  let e := Z.log2 x in
  if e <? 53 then x
  else let s := e - 52 in div_half_even x s * 2 ^ s.

(** [x * n] and [x + n] for a double [x] and an [int] [n] with
    [0 <= n < 2^53], which converts to a double without rounding *)
Definition mul_int (x n : Z) : Z := round53 (x * n).
Definition add_int (x n : Z) : Z := round53 (x + n * one).

(** [round(x)]: the nearest [int], ties to even *)
Definition py_round (x : Z) : Z := div_half_even x 53.

End Float.

(** [round(random() * min(60 * 3, (2**attempts) - 1) + 1)] for
    [attempts >= 0], where [draw] is the numerator of the double returned
    by [random()]. *)
Definition __get_reconnect_wait (attempts : Z) (draw : Z) : Z :=
  Float.py_round
    (Float.add_int
       (Float.mul_int draw (Z.min (60 * 3) (2 ^ attempts - 1)))
       1).

(** ** Challenge signature: [FuturesWsClientCl._get_sign_challenge] *)

Module Base64.

Definition alphabet : list byte :=
  String.list_byte_of_string
    "ABCDEFGHIJKLMNOPQRSTUVWXYZabcdefghijklmnopqrstuvwxyz0123456789+/".

(** the character of a 6-bit group *)
Definition digit (n : Z) : byte :=
  nth (Z.to_nat (Z.land n 63)) alphabet "="%byte.

Definition code (b : byte) : Z := Z.of_N (Byte.to_N b).

(** [base64.b64encode]: three bytes become four characters, the last
    group is padded with [=]. *)
Fixpoint b64encode (data : list byte) : list byte :=
  match data with
  | [] => []
  | [a] =>
      let n := Z.shiftl (code a) 16 in
      [digit (Z.shiftr n 18); digit (Z.shiftr n 12); "="%byte; "="%byte]
  | [a; b] =>
      let n := Z.lor (Z.shiftl (code a) 16) (Z.shiftl (code b) 8) in
      [digit (Z.shiftr n 18); digit (Z.shiftr n 12); digit (Z.shiftr n 6);
       "="%byte]
  | a :: b :: c :: rest =>
      let n := Z.lor (Z.lor (Z.shiftl (code a) 16) (Z.shiftl (code b) 8))
                     (code c) in
      digit (Z.shiftr n 18) :: digit (Z.shiftr n 12) :: digit (Z.shiftr n 6)
        :: digit n :: b64encode rest
  end.

End Base64.

Module Utf8.

Definition in_range (lo hi : Z) (b : byte) : bool :=
  (lo <=? Base64.code b) && (Base64.code b <=? hi).

Definition cont : byte → bool := in_range 128 191.

(** Well-formed UTF-8 byte sequences (no overlong forms, no surrogates,
    nothing above U+10FFFF), as the strict decoder accepts them. *)
Fixpoint valid_fuel (fuel : nat) (l : list byte) : bool :=
  match fuel with
  | O => match l with [] => true | _ => false end
  | S fuel =>
      match l with
      | [] => true
      | a :: l1 =>
          if in_range 0 127 a then valid_fuel fuel l1
          else match l1 with
          | [] => false
          | b :: l2 =>
              if in_range 194 223 a then cont b && valid_fuel fuel l2
              else match l2 with
              | [] => false
              | c :: l3 =>
                  if in_range 224 224 a then
                    in_range 160 191 b && cont c && valid_fuel fuel l3
                  else if in_range 225 236 a || in_range 238 239 a then
                    cont b && cont c && valid_fuel fuel l3
                  else if in_range 237 237 a then
                    in_range 128 159 b && cont c && valid_fuel fuel l3
                  else match l3 with
                  | [] => false
                  | d :: l4 =>
                      if in_range 240 240 a then
                        in_range 144 191 b && cont c && cont d
                        && valid_fuel fuel l4
                      else if in_range 241 243 a then
                        cont b && cont c && cont d && valid_fuel fuel l4
                      else if in_range 244 244 a then
                        in_range 128 143 b && cont c && cont d
                        && valid_fuel fuel l4
                      else false
                  end
              end
          end
      end
  end.

Definition valid (l : list byte) : bool := valid_fuel (length l) l.

End Utf8.

(** [data.decode('utf-8')] *)
Definition bytes_decode (data : list byte) : res string :=
  if Utf8.valid data then Ok (String.string_of_list_byte data)
  else Raise UnicodeDecodeError.

(** [text.encode('utf8')] *)
Definition str_encode (text : string) : list byte := String.list_byte_of_string text.

(** The primitives of [hashlib], [hmac] and [base64] that the signer calls:
    [sha256 m] is [hashlib.sha256(m).digest()], [hmac_sha512 k m] is
    [hmac.new(k, m, hashlib.sha512).digest()], and [b64decode s] is
    [base64.b64decode(s)], [None] when it raises (wrong padding, a
    character that is not ASCII). *)
Record crypto := {
  sha256 : list byte → list byte;
  hmac_sha512 : list byte → list byte → list byte;
  b64decode : string → option (list byte) }.

Module FuturesWsClientCl.

(** [_get_sign_challenge(self, challenge)], with [secret] the value of
    [self.secret].  A [challenge] that is not a [str] has no [encode]. *)
Definition _get_sign_challenge (lib : crypto) (secret : string)
    (challenge : json) : res json :=
  match challenge with
  | JStr text =>
      let digest := sha256 lib (str_encode text) in
      match b64decode lib secret with
      | None => Raise BinasciiError
      | Some key =>
          signature ← bytes_decode
                        (Base64.b64encode (hmac_sha512 lib key digest));
          Ok (JStr signature)
      end
  | _ => Raise AttributeError
  end.

End FuturesWsClientCl.

(** The signature as the specification writes it:
    [base64(HMAC-SHA512(secretKeyBytes, SHA256(rawChallenge)))]. *)
Definition spec_signed_challenge (lib : crypto) (secret_key_bytes : list byte)
    (raw_challenge : string) : string :=
  String.string_of_list_byte
    (Base64.b64encode
       (hmac_sha512 lib secret_key_bytes (sha256 lib (str_encode raw_challenge)))).

(** ** The client that owns the connection

    [ConnectFuturesWebsocket] reaches its client through [is_auth],
    [_key], [_get_sign_challenge] and the two feed catalogs; the catalogs
    are sequences of feed names. *)
Record client := {
  is_auth : bool;
  _key : string;
  _get_sign_challenge : json → res json;
  get_available_private_subscription_feeds : list string;
  get_available_public_subscription_feeds : list string }.

(** A client whose signer is the one of [FuturesWsClientCl]. *)
Definition futures_client (lib : crypto) (auth : bool) (key secret : string)
    (private_feeds public_feeds : list string) : client :=
  {| is_auth := auth;
     _key := key;
     _get_sign_challenge := FuturesWsClientCl._get_sign_challenge lib secret;
     get_available_private_subscription_feeds := private_feeds;
     get_available_public_subscription_feeds := public_feeds |}.

(** ** The attributes of [ConnectFuturesWebsocket] *)

Definition MAX_RECONNECT_NUM : Z := 2.

Record ws := mkWs {
  reconnect_num : Z;
  last_challenge : json;
  new_challenge : json;
  challenge_ready : bool;
  socket : option nat;
  subscriptions : list (gmap string json) }.

(** [__init__] *)
Definition ws_init : ws :=
  {| reconnect_num := 0;
     last_challenge := JNull;
     new_challenge := JNull;
     challenge_ready := false;
     socket := None;
     subscriptions := [] |}.

Definition set_reconnect_num (n : Z) (w : ws) : ws :=
  mkWs n (last_challenge w) (new_challenge w) (challenge_ready w) (socket w)
       (subscriptions w).
Definition set_last_challenge (v : json) (w : ws) : ws :=
  mkWs (reconnect_num w) v (new_challenge w) (challenge_ready w) (socket w)
       (subscriptions w).
Definition set_new_challenge (v : json) (w : ws) : ws :=
  mkWs (reconnect_num w) (last_challenge w) v (challenge_ready w) (socket w)
       (subscriptions w).
Definition set_challenge_ready (b : bool) (w : ws) : ws :=
  mkWs (reconnect_num w) (last_challenge w) (new_challenge w) b (socket w)
       (subscriptions w).
Definition set_socket (o : option nat) (w : ws) : ws :=
  mkWs (reconnect_num w) (last_challenge w) (new_challenge w)
       (challenge_ready w) o (subscriptions w).
Definition set_subscriptions (l : list (gmap string json)) (w : ws) : ws :=
  mkWs (reconnect_num w) (last_challenge w) (new_challenge w)
       (challenge_ready w) (socket w) l.

(** Methods that assign attributes and may raise: the attributes assigned
    before an exception stay assigned. *)
Definition M (A : Type) : Type := ws → res A * ws.

Global Instance M_ret : MRet M := λ A a w, (Ok a, w).
Global Instance M_bind : MBind M := λ A B k m w,
  match m w with
  | (Ok a, w') => k a w'
  | (Raise e, w') => (Raise e, w')
  end.

Definition lift {A} (r : res A) : M A := λ w, (r, w).
Definition assign (f : ws → ws) : M unit := λ w, (Ok tt, f w).
Definition read {A} (f : ws → A) : M A := λ w, (Ok (f w), w).

(** ** Subscription registry *)

Definition missing_attributes : exn :=
  ValueError "Cannot append/remove subscription with missing attributes.".

Definition catalog (feeds : list string) : list json := JStr <$> feeds.

(** [__build_subscription] *)
Definition __build_subscription (c : client) (subscription : json)
    : res (gmap string json) :=
  let sub : gmap string json := {[ "event" := JStr "subscribe" ]} in
  has_event ← py_contains subscription "event";
  malformed ←
    (if negb has_event then Ok true
     else
       ev ← py_getitem subscription "event";
       if negb (py_in ev [JStr "subscribed"; JStr "unsubscribed"]) then Ok true
       else has_feed ← py_contains subscription "feed"; Ok (negb has_feed));
  if (malformed : bool) then Raise missing_attributes
  else
    feed ← py_getitem subscription "feed";
    if py_in feed (catalog (get_available_public_subscription_feeds c)) then
      has_products ← py_contains subscription "product_ids";
      sub ←
        (if (has_products : bool) then
           products ← py_getitem subscription "product_ids";
           Ok (<["product_ids" :=
                   if is_list products then products else JArr [products]]> sub)
         else Ok sub);
      Ok (<["feed" := feed]> sub)
    else if py_in feed (catalog (get_available_private_subscription_feeds c))
    then Ok (<["feed" := feed]> sub)
    else Ok sub.

(** [x != sub] on two dicts *)
Definition differs (sub x : gmap string json) : bool :=
  negb (py_eqb (JObj x) (JObj sub)).

(** [__remove_subscription] *)
Definition __remove_subscription (c : client) (msg : json) : M unit :=
  sub ← lift (__build_subscription c msg);
  subs ← read subscriptions;
  assign (set_subscriptions (List.filter (differs sub) subs)).

(** [__append_subscription] *)
Definition __append_subscription (c : client) (msg : json) : M unit :=
  __remove_subscription c msg;;
  sub ← lift (__build_subscription c msg);
  subs ← read subscriptions;
  assign (set_subscriptions (subs ++ [sub])).

(** ** Challenge authenticator *)

(** [__handle_new_challenge] *)
Definition __handle_new_challenge (c : client) (msg : json) : M unit :=
  message ← lift (py_getitem msg "message");
  assign (set_last_challenge message);;
  signed ← lift (_get_sign_challenge c message);
  assign (set_new_challenge signed);;
  assign (set_challenge_ready true).

(** ** Receive loop: the body of [__run] for one parsed frame

    The result is the list of payloads handed to the callback. *)
Definition on_frame (c : client) (msg : json) : M (list json) :=
  has_event ← lift (py_contains msg "event");
  forward ←
    (if (has_event : bool) then
       _event ← lift (py_getitem msg "event");
       has_message ←
         (if py_eqb _event (JStr "challenge")
          then lift (py_contains msg "message") else mret false);
       if (has_message : bool) then
         __handle_new_challenge c msg;; mret false
       else if py_eqb _event (JStr "subscribed") then
         __append_subscription c msg;; mret true
       else if py_eqb _event (JStr "unsubscribed") then
         __remove_subscription c msg;; mret true
       else mret true
     else mret true);
  mret (if (forward : bool) then [msg] else []).

(** ** Observable effects *)

Inductive send_kind := PublicMsg | PrivateMsg | ChallengeRequest.

Inductive event :=
| EvCallback (payload : json)    (* [await self.__callback(payload)] *)
| EvSend (sock : nat) (kind : send_kind) (payload : gmap string json)
                                 (* [await self.__socket.send(json.dumps(payload))] *)
| EvSleep (millis : Z)           (* [await asyncio.sleep(millis / 1000)] *)
| EvConnect                      (* [websockets.connect(...)] is entered *)
| EvRaised (e : exn).            (* an application call of [send_message] raises *)

(** ** [send_message] as a resumable task *)

Inductive send_pc :=
| AwaitSocket      (* in [while not self.__socket] *)
| AwaitChallenge.  (* in [__check_challenge_ready], after the request is sent *)

Inductive progress (pc : Type) :=
| Suspended (at_pc : pc)
| Returned
| Raised (e : exn).
Arguments Suspended {pc} at_pc.
Arguments Returned {pc}.
Arguments Raised {pc} e.

Definition unauthenticated : exn :=
  ValueError "Cannot access private endpoints with unauthenticated client!".

(** [self.__socket.send(...)]: a send on a connection that is not open
    raises. [opened] lists the sockets whose connection is open. *)
Definition socket_send (opened : list nat) (w : ws) (kind : send_kind)
    (payload : gmap string json) : res (list event) :=
  match socket w with
  | Some sock =>
      if bool_decide (sock ∈ opened) then Ok [EvSend sock kind payload]
      else Raise TransportError
  | None => Raise AttributeError
  end.

(** [{"event": "challenge", "api_key": self.__client._key}] *)
Definition challenge_request (c : client) : gmap string json :=
  {[ "event" := JStr "challenge"; "api_key" := JStr (_key c) ]}.

(** the three assignments [msg["api_key"] = ...], [msg["original_challenge"]
    = ...], [msg["signed_challenge"] = ...] *)
Definition attach_credentials (c : client) (w : ws) (msg : gmap string json)
    : gmap string json :=
  <["signed_challenge" := new_challenge w]>
    (<["original_challenge" := last_challenge w]>
       (<["api_key" := JStr (_key c)]> msg)).

Definition final_send (opened : list nat) (w : ws) (kind : send_kind)
    (payload : gmap string json) : progress send_pc * list event :=
  match socket_send opened w kind payload with
  | Ok evs => (Returned, evs)
  | Raise e => (Raised e, [])
  end.

(** One step of [send_message(msg, private)] resumed at [pc] in a state
    where the attributes are [w]. *)
Definition send_message (c : client) (opened : list nat) (w : ws)
    (msg : gmap string json) (private : bool) (pc : send_pc)
    : progress send_pc * list event :=
  match pc with
  | AwaitSocket =>
      match socket w with
      | None => (Suspended AwaitSocket, [EvSleep 400])
      | Some _ =>
          if private then
            if negb (is_auth c) then (Raised unauthenticated, [])
            else if negb (challenge_ready w) then
              match socket_send opened w ChallengeRequest (challenge_request c)
              with
              | Ok evs => (Suspended AwaitChallenge, evs)
              | Raise e => (Raised e, [])
              end
            else final_send opened w PrivateMsg (attach_credentials c w msg)
          else final_send opened w PublicMsg msg
      end
  | AwaitChallenge =>
      if negb (challenge_ready w) then (Suspended AwaitChallenge, [EvSleep 200])
      else final_send opened w PrivateMsg (attach_credentials c w msg)
  end.

(** ** [__recover_subscription_req_msg] as a resumable task *)

Inductive replay_pc :=
| AwaitOpen                                   (* in [await event.wait()] *)
| Sending (msg : gmap string json) (private : bool) (pc : send_pc)
          (rest : list (gmap string json))    (* inside [send_message] *)
| Iterating (rest : list (gmap string json))  (* the last send is under way *)
| ReplayEnded (r : res unit).

Definition after_send (msg : gmap string json) (private : bool)
    (rest : list (gmap string json)) (p : progress send_pc * list event)
    : replay_pc * list event :=
  match p.1 with
  | Suspended pc => (Sending msg private pc rest, p.2)
  | Returned => (Iterating rest, p.2)
  | Raised e => (ReplayEnded (Raise e), p.2)
  end.

(** The [for sub in self.__subscriptions] loop from the entries [subs]
    on, up to the next suspension.  The loop runs over the list that the
    attribute holds when it starts: [__remove_subscription] assigns a new
    list and [append] extends that new list.  [deepcopy(sub)] is [sub]:
    the credentials are attached to the copy. *)
Fixpoint resend (c : client) (opened : list nat) (w : ws)
    (subs : list (gmap string json)) : replay_pc * list event :=
  match subs with
  | [] => (ReplayEnded (Ok tt), [])
  | sub :: rest =>
      match sub !! "feed" with
      | None => (ReplayEnded (Raise (KeyError "feed")), [])
      | Some feed =>
          if py_in feed (catalog (get_available_private_subscription_feeds c))
          then after_send sub true rest
                 (send_message c opened w sub true AwaitSocket)
          else if py_in feed
                    (catalog (get_available_public_subscription_feeds c))
          then after_send sub false rest
                 (send_message c opened w sub false AwaitSocket)
          else resend c opened w rest
      end
  end.

(** One step of the replay task; [event_set] is the state of the
    [asyncio.Event] shared with [__run]. *)
Definition __recover_subscription_req_msg (c : client) (opened : list nat)
    (event_set : bool) (w : ws) (pc : replay_pc) : replay_pc * list event :=
  match pc with
  | AwaitOpen =>
      if event_set then resend c opened w (subscriptions w) else (AwaitOpen, [])
  | Sending msg private spc rest =>
      after_send msg private rest (send_message c opened w msg private spc)
  | Iterating rest => resend c opened w rest
  | ReplayEnded r => (ReplayEnded r, [])
  end.

(** ** The tasks of one client on the event loop *)

(** [__run] *)
Inductive run_pc :=
| RunStart                 (* created, not yet started *)
| RunConnecting            (* in [websockets.connect] *)
| RunRecv (sock : nat)     (* in [asyncio.wait_for(self.__socket.recv(), 15)] *)
| RunEnded (r : res unit).

(** [__run_forever] and the [__reconnect] it is in *)
Inductive main_pc :=
| MainLoop                 (* about to call [__reconnect] *)
| MainSleeping             (* in [asyncio.sleep(reconnect_wait)] *)
| MainWaiting              (* in [asyncio.wait(tasks, FIRST_EXCEPTION)] *)
| MainDone.                (* [__run_forever] has returned *)

(** What the transport gives [__run] when it is resumed. *)
Inductive recv_result :=
| RecvTimeout                       (* [asyncio.TimeoutError] *)
| RecvText (parsed : option json)   (* a frame; [None] when [json.loads] raises *)
| RecvError.                        (* the connection is lost *)

Inductive run_input :=
| Begin                 (* the loop starts the task *)
| ConnectOk
| ConnectFail
| Recv (r : recv_result).

Record sys := mkSys {
  obj : ws;                       (* attributes of the connection object *)
  exception_occur : bool;         (* [self.__client.exception_occur] *)
  opened : list nat;              (* sockets whose connection is open *)
  fresh : nat;                    (* identity of the next socket *)
  main_t : main_pc;
  tasks : option (replay_pc * run_pc);  (* the [tasks] dict of [__reconnect] *)
  event_set : bool;               (* [event.is_set()] *)
  zombies : list nat;             (* cancelled [__run] tasks not yet resumed *)
  callers : list (gmap string json * bool * send_pc);
                                  (* suspended application calls *)
  trace : list event }.

Definition sys_init : sys :=
  {| obj := ws_init; exception_occur := false; opened := []; fresh := 0;
     main_t := MainLoop; tasks := None; event_set := false; zombies := [];
     callers := []; trace := [] |}.

Definition set_obj (w : ws) (s : sys) : sys :=
  mkSys w (exception_occur s) (opened s) (fresh s) (main_t s) (tasks s)
        (event_set s) (zombies s) (callers s) (trace s).
Definition set_exception_occur (b : bool) (s : sys) : sys :=
  mkSys (obj s) b (opened s) (fresh s) (main_t s) (tasks s) (event_set s)
        (zombies s) (callers s) (trace s).
Definition set_opened (l : list nat) (s : sys) : sys :=
  mkSys (obj s) (exception_occur s) l (fresh s) (main_t s) (tasks s)
        (event_set s) (zombies s) (callers s) (trace s).
Definition set_fresh (n : nat) (s : sys) : sys :=
  mkSys (obj s) (exception_occur s) (opened s) n (main_t s) (tasks s)
        (event_set s) (zombies s) (callers s) (trace s).
Definition set_main (pc : main_pc) (s : sys) : sys :=
  mkSys (obj s) (exception_occur s) (opened s) (fresh s) pc (tasks s)
        (event_set s) (zombies s) (callers s) (trace s).
Definition set_tasks (t : option (replay_pc * run_pc)) (s : sys) : sys :=
  mkSys (obj s) (exception_occur s) (opened s) (fresh s) (main_t s) t
        (event_set s) (zombies s) (callers s) (trace s).
Definition set_event (b : bool) (s : sys) : sys :=
  mkSys (obj s) (exception_occur s) (opened s) (fresh s) (main_t s) (tasks s)
        b (zombies s) (callers s) (trace s).
Definition set_zombies (l : list nat) (s : sys) : sys :=
  mkSys (obj s) (exception_occur s) (opened s) (fresh s) (main_t s) (tasks s)
        (event_set s) l (callers s) (trace s).
Definition set_callers (l : list (gmap string json * bool * send_pc)) (s : sys)
    : sys :=
  mkSys (obj s) (exception_occur s) (opened s) (fresh s) (main_t s) (tasks s)
        (event_set s) (zombies s) l (trace s).
Definition emit (evs : list event) (s : sys) : sys :=
  mkSys (obj s) (exception_occur s) (opened s) (fresh s) (main_t s) (tasks s)
        (event_set s) (zombies s) (callers s) (trace s ++ evs).

Definition close (sock : nat) (s : sys) : sys :=
  set_opened (List.filter (λ x, negb (Nat.eqb x sock)) (opened s)) s.

(** *** Error notices *)

Definition error_notice (reason : string) : json :=
  JObj {[ "error" := JStr reason ]}.

Definition max_reconnect_notice : json :=
  error_notice "kraken.exceptions.KrakenException.MaxReconnectError".

Definition cancelled_notice : json := error_notice "asyncio.CancelledError".

Definition exn_name (e : exn) : string :=
  match e with
  | MaxReconnectError => "MaxReconnectError"
  | ValueError text => text
  | KeyError key => "'" +:+ key +:+ "'"
  | TypeError => "TypeError"
  | AttributeError => "AttributeError"
  | BinasciiError => "binascii.Error"
  | UnicodeDecodeError => "UnicodeDecodeError"
  | TransportError => "TransportError"
  | CancelledError => "CancelledError"
  end.

(** [f"{task} got an exception {task.exception()}\n {task.get_stack()}"];
    the representation of the task and its stack are not modelled. *)
Definition task_failure_notice (task : string) (e : exn) : json :=
  error_notice ("<Task " +:+ task +:+ "> got an exception " +:+ exn_name e).

(** *** [__run], one step

    A task that has not started runs to its first suspension, in
    [websockets.connect], whatever the input; the other inputs are read
    where the task waits for them and are ignored elsewhere. *)

Definition run_ended (r : res unit) (s : sys) : sys :=
  match tasks s with
  | Some (rp, _) => set_tasks (Some (rp, RunEnded r)) s
  | None => s
  end.

Definition __run (c : client) (input : run_input) (s : sys) : sys :=
  match tasks s with
  | None => s
  | Some (rp, RunStart) =>
      emit [EvConnect]
        (set_tasks (Some (rp, RunConnecting))
           (set_obj (set_last_challenge JNull
                       (set_new_challenge JNull (obj s))) s))
  | Some (rp, RunConnecting) =>
      match input with
      | ConnectOk =>
          let sock := fresh s in
          set_tasks (Some (rp, RunRecv sock))
            (set_obj (set_reconnect_num 0 (set_socket (Some sock) (obj s)))
               (set_event true
                  (set_fresh (S sock) (set_opened (opened s ++ [sock]) s))))
      | ConnectFail => run_ended (Raise TransportError) s
      | _ => s
      end
  | Some (rp, RunRecv sock) =>
      match input with
      | Recv RecvTimeout => s
      | Recv (RecvText None) => s
      | Recv (RecvText (Some msg)) =>
          match on_frame c msg (obj s) with
          | (Ok out, w) => emit (EvCallback <$> out) (set_obj w s)
          | (Raise e, w) => run_ended (Raise e) (close sock (set_obj w s))
          end
      | Recv RecvError => run_ended (Raise TransportError) (close sock s)
      | _ => s
      end
  | Some (rp, RunEnded _) => s
  end.

(** *** [__reconnect] and [__run_forever], one step *)

Definition raised_replay (t : replay_pc * run_pc) : option exn :=
  match t.1 with ReplayEnded (Raise e) => Some e | _ => None end.

Definition raised_run (t : replay_pc * run_pc) : option exn :=
  match t.2 with RunEnded (Raise e) => Some e | _ => None end.

(** [process.cancel()] for every pending task.  A cancelled replay task
    runs no further statement.  A cancelled [__run] that is receiving
    handles [CancelledError] when it is next resumed. *)
Definition cancel_pending (t : replay_pc * run_pc) (s : sys) : sys :=
  match t.2 with
  | RunRecv sock => set_zombies (zombies s ++ [sock]) s
  | _ => s
  end.

Definition notices (t : replay_pc * run_pc) : list event :=
  match raised_replay t with
  | Some e =>
      [EvCallback (task_failure_notice "__recover_subscription_req_msg" e)]
  | None => []
  end ++
  match raised_run t with
  | Some e => [EvCallback (task_failure_notice "__run" e)]
  | None => []
  end.

(** The body of [while set(tasks.keys())] once [asyncio.wait] returns: it
    returns at the first exception; without one the loop waits again. *)
Definition join (s : sys) : sys :=
  match tasks s with
  | None => s
  | Some t =>
      match raised_replay t, raised_run t with
      | None, None => s
      | _, _ =>
          set_main MainLoop
            (set_tasks None (emit (notices t) (cancel_pending t s)))
      end
  end.

(** [__reconnect], resumed where the main task is suspended.  The state
    is returned with the result: what is assigned before an exception stays
    assigned. *)
Definition __reconnect (draw : Z) (s : sys) : sys * res unit :=
  match main_t s with
  | MainLoop =>
      let n := reconnect_num (obj s) + 1 in
      let s := set_obj (set_reconnect_num n (obj s)) s in
      if MAX_RECONNECT_NUM <=? n then (s, Raise MaxReconnectError)
      else
        (set_main MainSleeping
           (emit [EvSleep (1000 * __get_reconnect_wait n draw)] s), Ok tt)
  | MainSleeping =>
      (set_main MainWaiting
         (set_tasks (Some (AwaitOpen, RunStart)) (set_event false s)), Ok tt)
  | MainWaiting => (join s, Ok tt)
  | MainDone => (s, Ok tt)
  end.

(** [__run_forever]: [while True: await self.__reconnect()] with its
    [except] clauses and its [finally]. *)
Definition __run_forever (draw : Z) (s : sys) : sys :=
  match main_t s with
  | MainDone => s
  | _ =>
      match __reconnect draw s with
      | (s, Ok _) => s
      | (s, Raise MaxReconnectError) =>
          set_main MainDone
            (set_exception_occur true
               (emit [EvCallback max_reconnect_notice] s))
      | (s, Raise _) => set_main MainDone (set_exception_occur true s)
      end
  end.

(** *** The other tasks *)

Definition replay_task (c : client) (s : sys) : sys :=
  match tasks s with
  | Some (rp, rn) =>
      let r := __recover_subscription_req_msg c (opened s) (event_set s)
                 (obj s) rp in
      emit r.2 (set_tasks (Some (r.1, rn)) s)
  | None => s
  end.

(** a cancelled [__run] is resumed: [except asyncio.CancelledError] *)
Definition zombie_task (s : sys) : sys :=
  match zombies s with
  | sock :: rest =>
      close sock (emit [EvCallback cancelled_notice] (set_zombies rest s))
  | [] => s
  end.

(** the application calls [send_message(msg, private)] *)
Definition call_task (c : client) (msg : gmap string json) (private : bool)
    (s : sys) : sys :=
  let r := send_message c (opened s) (obj s) msg private AwaitSocket in
  match r.1 with
  | Suspended pc => emit r.2 (set_callers (callers s ++ [(msg, private, pc)]) s)
  | Returned => emit r.2 s
  | Raised e => emit (r.2 ++ [EvRaised e]) s
  end.

(** a suspended application call is resumed *)
Definition resume_task (c : client) (i : nat) (s : sys) : sys :=
  match callers s !! i with
  | Some (msg, private, pc) =>
      let r := send_message c (opened s) (obj s) msg private pc in
      match r.1 with
      | Suspended pc' =>
          emit r.2 (set_callers (<[i := (msg, private, pc')]> (callers s)) s)
      | Returned => emit r.2 (set_callers (delete i (callers s)) s)
      | Raised e =>
          emit (r.2 ++ [EvRaised e]) (set_callers (delete i (callers s)) s)
      end
  | None => s
  end.

(** ** The event loop

    A [label] is a choice of the scheduler and of the environment: which
    task is resumed, and with what. *)
Inductive label :=
| Main (draw : Z)        (* [draw]: the numerator of the next [random()] *)
| Run (input : run_input)
| Replay
| Zombie
| Call (msg : gmap string json) (private : bool)
| Resume (i : nat).

Definition step (c : client) (s : sys) (l : label) : sys :=
  match l with
  | Main draw => __run_forever draw s
  | Run input => __run c input s
  | Replay => replay_task c s
  | Zombie => zombie_task s
  | Call msg private => call_task c msg private s
  | Resume i => resume_task c i s
  end.

Definition exec (c : client) (s : sys) (script : list label) : sys :=
  foldl (step c) s script.

(** * Vocabulary of the properties *)

(** ** Specification-side definitions *)

(** The wait as the specification writes it:
    [round(uniformRandom(0,1) * min(180, 2^attempt - 1) + 1)]. *)
Definition spec_wait (attempt : Z) (draw : Z) : Z :=
  Float.py_round
    (Float.add_int (Float.mul_int draw (Z.min 180 (2 ^ attempt - 1))) 1).

Definition is_ascii (b : byte) : Prop := Base64.code b < 128.

(** ** Registry *)

(** An acknowledgement applied to the registry: ['subscribed'] adds,
    ['unsubscribed'] removes. *)
Inductive registry_op :=
| Add (msg : json)
| Remove (msg : json).

Definition apply_op (c : client) (w : ws) (op : registry_op) : ws :=
  match op with
  | Add msg => (__append_subscription c msg w).2
  | Remove msg => (__remove_subscription c msg w).2
  end.

(** [x == y] on two registry entries *)
Definition same_entry (x y : gmap string json) : Prop :=
  py_eqb (JObj x) (JObj y) = true.

(** no two entries of the registry are equal *)
Definition no_duplicates (subs : list (gmap string json)) : Prop :=
  ∀ i j x y, subs !! i = Some x → subs !! j = Some y → same_entry x y → i = j.

(** the representative of an entry's equality class *)
Definition entry_key (x : gmap string json) : json := py_norm (JObj x).

(** [a == b] on two attributes that may be missing *)
Definition same_attribute (a b : option json) : Prop :=
  py_norm <$> a = py_norm <$> b.

(** ** Receive loop *)

(** a frame that [__run] hands to the challenge authenticator: its event
    is ["challenge"] and it has a ["message"] *)
Definition consumed (m : gmap string json) : bool :=
  match m !! "event" with
  | Some ev =>
      py_eqb ev (JStr "challenge") && bool_decide (is_Some (m !! "message"))
  | None => false
  end.

(** the receive loop is resumed with the parsed frame [msg] *)
Definition frame (msg : json) : label := Run (Recv (RecvText (Some msg))).

(** ** Reachable states *)

(** a state of the client that some schedule reaches from its creation *)
Definition reachable (c : client) (s : sys) : Prop :=
  ∃ script, s = exec c sys_init script.

(** While the tasks of an attempt exist, [__reconnect] is waiting for them;
    while [__run] is receiving, the reconnect counter is 0. *)
Definition attempt_inv (s : sys) : Prop :=
  (∀ t, tasks s = Some t → main_t s = MainWaiting) ∧
  (∀ rp sock, tasks s = Some (rp, RunRecv sock) → reconnect_num (obj s) = 0).

(** ** A call of [send_message] through its resumptions *)

(** [views] lists, for each resumption of the call, the open sockets and
    the attributes at that moment; between two resumptions the other tasks
    may have changed them in any way. *)
Fixpoint send_run (c : client) (views : list (list nat * ws))
    (msg : gmap string json) (private : bool) (pc : send_pc)
    : progress send_pc * list event :=
  match views with
  | [] => (Suspended pc, [])
  | (opened, w) :: rest =>
      let r := send_message c opened w msg private pc in
      match r.1 with
      | Suspended pc' =>
          let r' := send_run c rest msg private pc' in (r'.1, r.2 ++ r'.2)
      | _ => r
      end
  end.

(** ** The replay task through its resumptions *)

(** a view lists the open sockets, the state of the event and the
    attributes at one resumption *)
Fixpoint replay_run (c : client) (views : list (list nat * bool * ws))
    (pc : replay_pc) : replay_pc * list event :=
  match views with
  | [] => (pc, [])
  | (opened, event_set, w) :: rest =>
      let r := __recover_subscription_req_msg c opened event_set w pc in
      let r' := replay_run c rest r.1 in
      (r'.1, r.2 ++ r'.2)
  end.









(** ** The reconnect loop while every attempt fails *)

(** no connection attempt of the schedule succeeds *)
Definition all_connects_fail (script : list label) : Prop :=
  Forall (λ l, l ≠ Run ConnectOk) script.

Definition is_connect (e : event) : bool :=
  match e with EvConnect => true | _ => false end.

Definition is_terminal_notice (e : event) : bool :=
  match e with
  | EvCallback payload => bool_decide (payload = max_reconnect_notice)
  | _ => false
  end.

(** the connection attempts made so far *)
Definition connection_attempts (s : sys) : nat :=
  length (List.filter is_connect (trace s)).

(** the terminal error notices delivered to the callback so far *)
Definition terminal_notices (s : sys) : nat :=
  length (List.filter is_terminal_notice (trace s)).

(** The phases of the reconnect loop while every connection attempt
    fails: the place of the main task, the tasks of the attempt, the
    reconnect counter, the connection attempts and the terminal notices so
    far, the failed flag of the client. *)
Definition shape (k : nat)
    : main_pc * option (replay_pc * run_pc) * Z * nat * nat * bool :=
  match k with
  | 0%nat => (MainLoop, None, 0, 0%nat, 0%nat, false)
  | 1%nat => (MainSleeping, None, 1, 0%nat, 0%nat, false)
  | 2%nat => (MainWaiting, Some (AwaitOpen, RunStart), 1, 0%nat, 0%nat, false)
  | 3%nat =>
      (MainWaiting, Some (AwaitOpen, RunConnecting), 1, 1%nat, 0%nat, false)
  | 4%nat =>
      (MainWaiting, Some (AwaitOpen, RunEnded (Raise TransportError)), 1,
       1%nat, 0%nat, false)
  | 5%nat => (MainLoop, None, 1, 1%nat, 0%nat, false)
  | _ => (MainDone, None, 2, 1%nat, 1%nat, true)
  end.

Definition at_phase (k : nat) (s : sys) : Prop :=
  event_set s = false ∧ zombies s = [] ∧
  (main_t s, tasks s, reconnect_num (obj s), connection_attempts s,
   terminal_notices s, exception_occur s) = shape k.

(** [l] resumes the task that the loop waits for in phase [k] *)
Definition resumes (k : nat) (l : label) : bool :=
  match k, l with
  | 0, Main _ | 1, Main _ | 4, Main _ | 5, Main _ => true
  | 2, Run _ => true
  | 3, Run ConnectFail => true
  | _, _ => false
  end%nat.

Definition next_phase (k : nat) (l : label) : nat :=
  if resumes k l then S k else k.

(** The schedule resumes, in their turn, the tasks that the loop waits for
    until [__run_forever] returns. *)
Definition keeps_running (script : list label) : bool :=
  (6 <=? foldl next_phase 0%nat script)%nat.

(** ** Examples *)

(** A configuration: a signer whose primitives are stand-ins, one private
    and one public feed. *)
Definition example_lib : crypto :=
  {| sha256 := λ m, m;
     hmac_sha512 := λ k m, k ++ m;
     b64decode := λ s, Some (String.list_byte_of_string s) |}.

Definition example_client (auth : bool) : client :=
  futures_client example_lib auth "key" "secret" ["fills"] ["ticker"].

(** [{"event": "challenge"}] *)
Definition bare_challenge : json := JObj {[ "event" := JStr "challenge" ]}.

(** [{"event": "challenge", "message": "nonce"}] *)
Definition challenge_frame : json :=
  JObj {[ "event" := JStr "challenge"; "message" := JStr "nonce" ]}.

(** [{"event": "subscribed", "feed": "ticker"}] *)
Definition ticker_ack : gmap string json :=
  {[ "event" := JStr "subscribed"; "feed" := JStr "ticker" ]}.

(** [{"event": "subscribed", "feed": "fills"}] *)
Definition fills_ack : gmap string json :=
  {[ "event" := JStr "subscribed"; "feed" := JStr "fills" ]}.

(** [{"event": "subscribed"}] *)
Definition feedless_ack : gmap string json :=
  {[ "event" := JStr "subscribed" ]}.

(** [{"event": "subscribe", "feed": "ticker"}] *)
Definition ticker_sub : gmap string json :=
  {[ "event" := JStr "subscribe"; "feed" := JStr "ticker" ]}.

(** [{"event": "subscribe", "feed": "fills"}] *)
Definition fills_sub : gmap string json :=
  {[ "event" := JStr "subscribe"; "feed" := JStr "fills" ]}.

(** The main task enters the loop and sleeps, wakes and creates the tasks
    of the attempt; [__run] starts and its connection opens. *)
Definition first_connection : list label :=
  [Main 0; Main 0; Run Begin; Run ConnectOk].

(** The only connection attempt fails; the main task joins the attempt and
    enters the loop again. *)
Definition failing_schedule : list label :=
  [Main 0; Main 0; Run Begin; Run ConnectFail; Main 0; Main 0].

(** The first connection receives a challenge and the acknowledgement of
    a private subscription and is then lost; the client reconnects. *)
Definition lost_and_reopened : list label :=
  first_connection
  ++ [frame challenge_frame; frame (JObj fills_ack); Run (Recv RecvError);
      Main 0; Main 0; Main 0; Run Begin; Run ConnectOk].


(** a view of an open connection on socket 0, after the challenge frame
    has been handled, with the registry [subs] *)
Definition ready_view (subs : list (gmap string json))
    : list nat * bool * ws :=
  ([0%nat], true,
   set_subscriptions subs
     (__handle_new_challenge (example_client true) challenge_frame
        (set_socket (Some 0%nat) ws_init)).2).

(** ** The reconnect loop on every schedule *)

(** What holds of the main task wherever it is suspended: the tasks of an
    attempt exist exactly while [__reconnect] waits for them, the counter
    is below the ceiling until [__run_forever] has returned, and the client
    is marked failed exactly then. *)
Definition loop_inv (s : sys) : Prop :=
  match main_t s with
  | MainLoop =>
      tasks s = None ∧ 0 ≤ reconnect_num (obj s) ≤ 1 ∧ exception_occur s = false
  | MainSleeping =>
      tasks s = None ∧ reconnect_num (obj s) = 1 ∧ exception_occur s = false
  | MainWaiting =>
      is_Some (tasks s) ∧ 0 ≤ reconnect_num (obj s) ≤ 1 ∧
      exception_occur s = false
  | MainDone =>
      tasks s = None ∧ reconnect_num (obj s) = MAX_RECONNECT_NUM ∧
      exception_occur s = true
  end.

(** One round of the loop in which the connection opens and is lost: the
    main task sleeps and creates the tasks, [__run] connects, the socket
    opens, the receive raises, and the main task joins the attempt. *)
Definition reopening_round (draw : Z) : list label :=
  [Main draw; Main 0; Run Begin; Run ConnectOk; Run (Recv RecvError); Main 0].

(** ** Acknowledgements *)

(** the acknowledgement [m] with its event replaced *)
Definition with_event (name : string) (m : gmap string json)
    : gmap string json :=
  <["event" := JStr name]> m.

(** * Properties *)

(** ** The main task, by the place where it is suspended *)

Lemma run_forever_cases (draw : Z) (s : sys) :
  __run_forever draw s =
    match main_t s with
    | MainLoop =>
        let n := reconnect_num (obj s) + 1 in
        let s := set_obj (set_reconnect_num n (obj s)) s in
        if MAX_RECONNECT_NUM <=? n then
          set_main MainDone
            (set_exception_occur true (emit [EvCallback max_reconnect_notice] s))
        else
          set_main MainSleeping
            (emit [EvSleep (1000 * __get_reconnect_wait n draw)] s)
    | MainSleeping =>
        set_main MainWaiting
          (set_tasks (Some (AwaitOpen, RunStart)) (set_event false s))
    | MainWaiting => join s
    | MainDone => s
    end.
Proof.
  unfold __run_forever, __reconnect. destruct (main_t s); try done.
  cbn. by destruct (MAX_RECONNECT_NUM <=? reconnect_num (obj s) + 1).
Qed.

(** ** Backoff policy *)

Module FloatFacts.
Import Float.

Lemma div_half_even_bounds (x s lo hi : Z) :
  1 ≤ s → lo * 2 ^ s ≤ x ≤ hi * 2 ^ s → lo ≤ div_half_even x s ≤ hi.
Proof.
  intros Hs [Hlo Hhi]. unfold div_half_even.
  assert (Hp : 0 < 2 ^ s) by (apply Z.pow_pos_nonneg; lia).
  assert (Hh : 0 < 2 ^ (s - 1)) by (apply Z.pow_pos_nonneg; lia).
  pose proof (Z.div_mod x (2 ^ s) ltac:(lia)) as Hdm.
  pose proof (Z.mod_pos_bound x (2 ^ s) Hp) as Hr.
  set (q := x / 2 ^ s) in *. set (r := x mod 2 ^ s) in *.
  assert (lo ≤ q) by nia.
  assert (q ≤ hi) by nia.
  assert (0 < r → q + 1 ≤ hi) by nia.
  repeat case_match; lia.
Qed.

Lemma round53_bounds (x lo hi : Z) :
  0 ≤ x < 2 ^ 106 → lo * one ≤ x ≤ hi * one →
  lo * one ≤ round53 x ≤ hi * one.
Proof.
  intros [Hx0 Hx] Hb. unfold round53.
  destruct (Z.ltb_spec (Z.log2 x) 53) as [|He]; [lia|].
  assert (0 < x) by (destruct (Z.eq_dec x 0) as [->|]; [simpl in He|]; lia).
  assert (Z.log2 x < 106) by (apply Z.log2_lt_pow2; lia).
  set (s := Z.log2 x - 52) in *.
  assert (Hone : one = 2 ^ (53 - s) * 2 ^ s).
  { unfold one. rewrite <- Z.pow_add_r by lia. f_equal. lia. }
  assert (Hp : 0 < 2 ^ s) by (apply Z.pow_pos_nonneg; lia).
  pose proof (div_half_even_bounds x s (lo * 2 ^ (53 - s)) (hi * 2 ^ (53 - s))
                ltac:(lia) ltac:(rewrite Hone in Hb; lia)) as Hd.
  rewrite Hone. nia.
Qed.

Lemma py_round_bounds (x lo hi : Z) :
  lo * one ≤ x ≤ hi * one → lo ≤ py_round x ≤ hi.
Proof. intros. apply div_half_even_bounds; [lia|done]. Qed.

End FloatFacts.

Lemma backoff_ceiling (n : Z) : 1 ≤ n → 1 ≤ Z.min (60 * 3) (2 ^ n - 1) ≤ 180.
Proof.
  intros Hn. assert (2 ^ 1 ≤ 2 ^ n) by (apply Z.pow_le_mono_r; lia). lia.
Qed.

Lemma backoff_ceiling_capped (n : Z) :
  8 ≤ n → Z.min (60 * 3) (2 ^ n - 1) = 180.
Proof.
  intros Hn. assert (2 ^ 8 ≤ 2 ^ n) by (apply Z.pow_le_mono_r; lia). lia.
Qed.

(** C5. For every attempt count [n >= 1] and every draw [r = draw / 2^53]
    of [random()], the wait is [round(r * min(180, 2^n - 1) + 1)] and lies
    in [1, 181]; the exponential term is capped at 180 (from [n = 8] on the
    wait no longer depends on [n]), the smallest wait, 1 second, is that
    of the draw 0, and the wait is a function of [n] and the draw alone. *)
Theorem backoff_wait_bounds (n draw : Z) :
  1 ≤ n → 0 ≤ draw < 2 ^ 53 →
  __get_reconnect_wait n draw = spec_wait n draw ∧
  1 ≤ __get_reconnect_wait n draw ≤ 181 ∧
  (8 ≤ n → __get_reconnect_wait n draw = __get_reconnect_wait 8 draw) ∧
  __get_reconnect_wait n 0 = 1.
Proof.
  intros Hn Hd. pose proof (backoff_ceiling n Hn) as Hm.
  split; [reflexivity|]. split; [|split].
  - unfold __get_reconnect_wait, Float.mul_int, Float.add_int.
    set (m := Z.min (60 * 3) (2 ^ n - 1)) in *.
    assert (H106 : 2 ^ 53 * 2 ^ 53 = 2 ^ 106) by (rewrite <- Z.pow_add_r; lia).
    assert (Hone : Float.one = 2 ^ 53) by reflexivity.
    assert (0 < 2 ^ 53) by (apply Z.pow_pos_nonneg; lia).
    pose proof (FloatFacts.round53_bounds (draw * m) 0 180
                  ltac:(nia) ltac:(nia)) as Hp.
    set (p := Float.round53 (draw * m)) in *.
    pose proof (FloatFacts.round53_bounds (p + 1 * Float.one) 1 181
                  ltac:(nia) ltac:(nia)) as Ha.
    apply FloatFacts.py_round_bounds. lia.
  - intros H8. unfold __get_reconnect_wait.
    rewrite (backoff_ceiling_capped n H8), (backoff_ceiling_capped 8); lia.
  - unfold __get_reconnect_wait, Float.mul_int. rewrite Z.mul_0_l.
    reflexivity.
Qed.

Lemma backoff_wait_bounds_witness :
  __get_reconnect_wait 1 (2 ^ 52 - 1) = spec_wait 1 (2 ^ 52 - 1) ∧
  1 ≤ __get_reconnect_wait 1 (2 ^ 52 - 1) ≤ 181 ∧
  (8 ≤ 1 → __get_reconnect_wait 1 (2 ^ 52 - 1)
           = __get_reconnect_wait 8 (2 ^ 52 - 1)) ∧
  __get_reconnect_wait 1 0 = 1.
Proof. apply (backoff_wait_bounds 1 (2 ^ 52 - 1)); lia. Defined.

(** The largest wait is reached, and [round] is the rounding of the
    double sum: [0.5 - 2^-53 + 1] is the double [1.5], which rounds to 2. *)
Example backoff_wait_extremes :
  __get_reconnect_wait 8 (2 ^ 53 - 1) = 181 ∧
  __get_reconnect_wait 1 (2 ^ 52 - 1) = 2.
Proof. split; vm_compute; reflexivity. Qed.

(** ** Challenge signature *)

Lemma digit_is_ascii (n : Z) : is_ascii (Base64.digit n).
Proof.
  unfold Base64.digit.
  destruct (nth_in_or_default (Z.to_nat (Z.land n 63)) Base64.alphabet "="%byte)
    as [Hin | ->]; [|by vm_compute].
  assert (Hall : Forall is_ascii Base64.alphabet).
  { unfold Base64.alphabet. cbn [String.list_byte_of_string].
    repeat constructor. }
  rewrite List.Forall_forall in Hall. by apply Hall.
Qed.

Lemma pad_is_ascii : is_ascii "="%byte.
Proof. by vm_compute. Qed.

Lemma b64encode_is_ascii (data : list byte) :
  Forall is_ascii (Base64.b64encode data).
Proof.
  remember (length data) as n eqn:Hn.
  revert data Hn. induction (lt_wf n) as [n _ IH]. intros data ->.
  destruct data as [|a [|b [|c rest]]]; cbn [Base64.b64encode].
  - constructor.
  - repeat constructor; auto using digit_is_ascii, pad_is_ascii.
  - repeat constructor; auto using digit_is_ascii, pad_is_ascii.
  - repeat (constructor; [apply digit_is_ascii|]).
    eapply IH; [|reflexivity]. cbn [length]. lia.
Qed.

Lemma ascii_is_utf8 (data : list byte) :
  Forall is_ascii data → Utf8.valid data = true.
Proof.
  unfold Utf8.valid. induction 1 as [|b data Hb _ IH]; [done|].
  cbn [length Utf8.valid_fuel].
  replace (Utf8.in_range 0 127 b) with true; [done|].
  unfold Utf8.in_range. unfold is_ascii in Hb.
  assert (0 ≤ Base64.code b) by (unfold Base64.code; lia).
  symmetry. apply andb_true_iff. split; apply Z.leb_le; lia.
Qed.

(** the [.decode('utf-8')] of a base64 text never raises *)
Lemma b64encode_decodes (data : list byte) :
  bytes_decode (Base64.b64encode data)
  = Ok (String.string_of_list_byte (Base64.b64encode data)).
Proof.
  unfold bytes_decode. by rewrite (ascii_is_utf8 _ (b64encode_is_ascii data)).
Qed.

(** C3. For every secret and every nonce the signed challenge is
    [base64(HMAC-SHA512(base64-decode(secret), SHA256(nonce)))], and the
    call raises exactly when the secret does not decode; the result depends
    on the secret and the nonce alone: clients that differ in every other
    attribute produce the same signature. *)
Theorem sign_challenge_is_spec (lib : crypto) (secret nonce : string) :
  FuturesWsClientCl._get_sign_challenge lib secret (JStr nonce)
  = match b64decode lib secret with
    | Some key => Ok (JStr (spec_signed_challenge lib key nonce))
    | None => Raise BinasciiError
    end
  ∧ ∀ auth1 auth2 key1 key2 private1 private2 public1 public2,
      _get_sign_challenge
        (futures_client lib auth1 key1 secret private1 public1) (JStr nonce)
      = _get_sign_challenge
          (futures_client lib auth2 key2 secret private2 public2) (JStr nonce).
Proof.
  split; [|reflexivity].
  unfold FuturesWsClientCl._get_sign_challenge, spec_signed_challenge.
  destruct (b64decode lib secret) as [key|]; [|done].
  by rewrite b64encode_decodes.
Qed.

(** ** Subscription registry *)

Lemma same_entry_key (x y : gmap string json) :
  same_entry x y ↔ entry_key x = entry_key y.
Proof. unfold same_entry, py_eqb. by rewrite bool_decide_eq_true. Qed.

Lemma differs_key (sub x : gmap string json) :
  differs sub x = true ↔ entry_key x ≠ entry_key sub.
Proof.
  unfold differs, py_eqb. rewrite negb_true_iff, bool_decide_eq_false. done.
Qed.

Lemma no_duplicates_keys (subs : list (gmap string json)) :
  no_duplicates subs ↔ NoDup (entry_key <$> subs).
Proof.
  rewrite NoDup_alt. unfold no_duplicates. split.
  - intros H i j k Hi Hj. rewrite list_lookup_fmap in Hi, Hj.
    destruct (subs !! i) as [x|] eqn:Hx; [|done].
    destruct (subs !! j) as [y|] eqn:Hy; [|done].
    simpl in *. apply (H i j x y); [done..|].
    apply same_entry_key. congruence.
  - intros H i j x y Hi Hj Hxy. apply (H i j (entry_key x)).
    + by rewrite list_lookup_fmap, Hi.
    + rewrite list_lookup_fmap, Hj. simpl. f_equal.
      symmetry. by apply same_entry_key.
Qed.

Lemma keys_filter_NoDup (sub : gmap string json) subs :
  NoDup (entry_key <$> subs) →
  NoDup (entry_key <$> List.filter (differs sub) subs).
Proof.
  induction subs as [|x subs IH]; [done|].
  rewrite fmap_cons, NoDup_cons. intros [Hx Hnd]. cbn [List.filter].
  destruct (differs sub x); [|by apply IH].
  rewrite fmap_cons, NoDup_cons. split; [|by apply IH].
  intros Hin. apply Hx.
  apply list_elem_of_fmap in Hin as (y & -> & Hy).
  apply list_elem_of_fmap. exists y. split; [done|].
  apply list_elem_of_In, filter_In in Hy as [Hy _]. by apply list_elem_of_In.
Qed.

Lemma keys_filter_fresh (sub : gmap string json) subs :
  entry_key sub ∉ entry_key <$> List.filter (differs sub) subs.
Proof.
  intros (y & Hk & Hy)%list_elem_of_fmap.
  apply list_elem_of_In, filter_In in Hy as [_ Hy].
  apply differs_key in Hy. congruence.
Qed.

Lemma filter_absent (sub : gmap string json) subs :
  (∀ x, x ∈ subs → ¬ same_entry x sub) → List.filter (differs sub) subs = subs.
Proof.
  induction subs as [|x subs IH]; [done|]. intros H. cbn [List.filter].
  replace (differs sub x) with true.
  - f_equal. apply IH. intros y Hy. apply H. by right.
  - symmetry. apply differs_key. rewrite <- same_entry_key. apply H. by left.
Qed.

Lemma set_subscriptions_same (w : ws) : set_subscriptions (subscriptions w) w = w.
Proof. by destruct w. Qed.

Lemma remove_subscription_ok (c : client) msg sub (w : ws) :
  __build_subscription c msg = Ok sub →
  __remove_subscription c msg w
  = (Ok tt, set_subscriptions (List.filter (differs sub) (subscriptions w)) w).
Proof.
  intros H. unfold __remove_subscription, mbind, M_bind, lift, read, assign.
  by rewrite H.
Qed.

Lemma remove_subscription_raise (c : client) msg e (w : ws) :
  __build_subscription c msg = Raise e →
  __remove_subscription c msg w = (Raise e, w).
Proof.
  intros H. unfold __remove_subscription, mbind, M_bind, lift. by rewrite H.
Qed.

Lemma append_subscription_ok (c : client) msg sub (w : ws) :
  __build_subscription c msg = Ok sub →
  __append_subscription c msg w
  = (Ok tt,
     set_subscriptions (List.filter (differs sub) (subscriptions w) ++ [sub]) w).
Proof.
  intros H. unfold __append_subscription, mbind, M_bind.
  rewrite (remove_subscription_ok c msg sub w H).
  unfold lift, read, assign. by rewrite H.
Qed.

Lemma append_subscription_raise (c : client) msg e (w : ws) :
  __build_subscription c msg = Raise e →
  __append_subscription c msg w = (Raise e, w).
Proof.
  intros H. unfold __append_subscription, mbind, M_bind.
  by rewrite (remove_subscription_raise c msg e w H).
Qed.

Lemma apply_op_no_duplicates (c : client) (w : ws) (op : registry_op) :
  no_duplicates (subscriptions w) →
  no_duplicates (subscriptions (apply_op c w op)).
Proof.
  rewrite !no_duplicates_keys. intros Hnd.
  destruct op as [msg|msg]; cbn [apply_op];
    destruct (__build_subscription c msg) as [sub|e] eqn:Hb.
  - rewrite (append_subscription_ok _ _ _ _ Hb). cbn.
    rewrite fmap_app. apply NoDup_app. split; [by apply keys_filter_NoDup|].
    split; [|apply NoDup_singleton].
    intros k Hk ->%list_elem_of_singleton. by apply keys_filter_fresh in Hk.
  - by rewrite (append_subscription_raise _ _ _ _ Hb).
  - rewrite (remove_subscription_ok _ _ _ _ Hb). cbn.
    by apply keys_filter_NoDup.
  - by rewrite (remove_subscription_raise _ _ _ _ Hb).
Qed.

(** An entry of the registry has no attribute besides [event], [feed] and
    [product_ids], and its [event] is ["subscribe"]. *)
Lemma build_subscription_shape (c : client) msg sub :
  __build_subscription c msg = Ok sub →
  sub !! "event" = Some (JStr "subscribe") ∧
  ∀ k, k ≠ "event" → k ≠ "feed" → k ≠ "product_ids" → sub !! k = None.
Proof.
  unfold __build_subscription, mbind, res_bind. intros H.
  repeat (case_match; simplify_eq; try done);
    (split; [by simplify_map_eq | intros k ???; by simplify_map_eq]).
Qed.

(** Equality of entries is equality of their feed and of their product
    scope. *)
Lemma same_entry_structural (c : client) msg1 msg2 sub1 sub2 :
  __build_subscription c msg1 = Ok sub1 →
  __build_subscription c msg2 = Ok sub2 →
  same_entry sub1 sub2 ↔
    same_attribute (sub1 !! "feed") (sub2 !! "feed") ∧
    same_attribute (sub1 !! "product_ids") (sub2 !! "product_ids").
Proof.
  intros [He1 Ho1]%build_subscription_shape [He2 Ho2]%build_subscription_shape.
  rewrite same_entry_key. unfold entry_key, same_attribute. cbn [py_norm].
  rewrite <- !lookup_fmap. split.
  - intros [= ->]. done.
  - intros [Hf Hp]. f_equal. apply map_eq. intros k.
    destruct (decide (k = "feed")) as [->|]; [done|].
    destruct (decide (k = "product_ids")) as [->|]; [done|].
    rewrite !lookup_fmap.
    destruct (decide (k = "event")) as [->|]; [by rewrite He1, He2|].
    by rewrite Ho1, Ho2.
Qed.

(** C4. For every sequence of adds and removes applied to the empty
    registry, no two entries of the registry are equal, where two entries
    are equal when their feed and their product scope are (the visibility
    is that of the feed); an add drops the entries equal to the new one and
    appends it, so that a re-added entry becomes the last one while the
    others keep their order; and a remove of an entry that is absent leaves
    the registry as it is. *)
Theorem registry_never_duplicates (c : client) :
  (∀ ops, no_duplicates (subscriptions (foldl (apply_op c) ws_init ops))) ∧
  (∀ w msg sub, __build_subscription c msg = Ok sub →
     __append_subscription c msg w
     = (Ok tt,
        set_subscriptions
          (List.filter (differs sub) (subscriptions w) ++ [sub]) w)) ∧
  (∀ w msg sub, __build_subscription c msg = Ok sub →
     (∀ x, x ∈ subscriptions w → ¬ same_entry x sub) →
     __remove_subscription c msg w = (Ok tt, w)) ∧
  (∀ msg1 msg2 sub1 sub2,
     __build_subscription c msg1 = Ok sub1 →
     __build_subscription c msg2 = Ok sub2 →
     same_entry sub1 sub2 ↔
       same_attribute (sub1 !! "feed") (sub2 !! "feed") ∧
       same_attribute (sub1 !! "product_ids") (sub2 !! "product_ids")).
Proof.
  split; [|split; [|split]]; [| | |apply same_entry_structural].
  - intros ops. induction ops as [|op ops IH] using rev_ind.
    + intros i j x y Hi. cbn in Hi. by rewrite lookup_nil in Hi.
    + rewrite foldl_snoc. by apply apply_op_no_duplicates.
  - intros w msg sub. apply append_subscription_ok.
  - intros w msg sub Hb Habs. rewrite (remove_subscription_ok _ _ _ _ Hb).
    by rewrite (filter_absent _ _ Habs), set_subscriptions_same.
Qed.

Lemma registry_never_duplicates_witness :
  __build_subscription (example_client true) (JObj ticker_ack) = Ok ticker_sub ∧
  __remove_subscription (example_client true) (JObj ticker_ack) ws_init
  = (Ok tt, ws_init).
Proof.
  assert (Hb : __build_subscription (example_client true) (JObj ticker_ack)
               = Ok ticker_sub) by (vm_compute; reflexivity).
  split; [exact Hb|].
  apply (proj1 (proj2 (proj2 (registry_never_duplicates (example_client true))))
           ws_init (JObj ticker_ack) ticker_sub Hb).
  intros x Hx. cbn in Hx. by apply elem_of_nil in Hx.
Defined.

(** ** Receive loop *)

Lemma py_eqb_str (v : json) (s : string) : py_eqb v (JStr s) = true ↔ v = JStr s.
Proof.
  unfold py_eqb. rewrite bool_decide_eq_true. split; [|by intros ->].
  destruct v; cbn; congruence.
Qed.

Lemma py_eqb_str_ne (v : json) (s : string) :
  v ≠ JStr s → py_eqb v (JStr s) = false.
Proof.
  intros H. destruct (py_eqb v (JStr s)) eqn:E; [|done].
  by apply py_eqb_str in E.
Qed.

Lemma py_eqb_refl (v : json) : py_eqb v v = true.
Proof. unfold py_eqb. by rewrite bool_decide_eq_true. Qed.

(** [on_frame] on a JSON object, by the cases of the frame *)
Lemma on_frame_object (c : client) (m : gmap string json) (w : ws) :
  on_frame c (JObj m) w =
    match m !! "event" with
    | None => (Ok [JObj m], w)
    | Some ev =>
        if consumed m then
          match __handle_new_challenge c (JObj m) w with
          | (Ok _, w') => (Ok [], w')
          | (Raise e, w') => (Raise e, w')
          end
        else if py_eqb ev (JStr "subscribed") then
          match __append_subscription c (JObj m) w with
          | (Ok _, w') => (Ok [JObj m], w')
          | (Raise e, w') => (Raise e, w')
          end
        else if py_eqb ev (JStr "unsubscribed") then
          match __remove_subscription c (JObj m) w with
          | (Ok _, w') => (Ok [JObj m], w')
          | (Raise e, w') => (Raise e, w')
          end
        else (Ok [JObj m], w)
    end.
Proof.
  unfold on_frame, consumed, mbind, M_bind, mret, M_ret, lift. cbn.
  destruct (m !! "event") as [ev|] eqn:Hev; cbn; [|done].
  destruct (py_eqb ev (JStr "challenge")) eqn:Hch; cbn.
  - destruct (m !! "message") as [v|] eqn:Hm; cbn.
    + by destruct (__handle_new_challenge c (JObj m) w) as [[]].
    + apply py_eqb_str in Hch as ->.
      by replace (py_eqb (JStr "challenge") (JStr "subscribed")) with false;
        [replace (py_eqb (JStr "challenge") (JStr "unsubscribed")) with false|].
  - destruct (py_eqb ev (JStr "subscribed")).
    + by destruct (__append_subscription c (JObj m) w) as [[]].
    + destruct (py_eqb ev (JStr "unsubscribed")); [|done].
      by destruct (__remove_subscription c (JObj m) w) as [[]].
Qed.

Lemma build_subscription_with_feed (c : client) (m : gmap string json) :
  m !! "event" = Some (JStr "subscribed") ∨
  m !! "event" = Some (JStr "unsubscribed") →
  is_Some (m !! "feed") →
  ∃ sub, __build_subscription c (JObj m) = Ok sub.
Proof.
  intros Hev [feed Hfeed].
  unfold __build_subscription, mbind, res_bind. cbn. rewrite Hfeed.
  destruct Hev as [-> | ->]; cbn;
    destruct (py_in feed _); cbn; try (destruct (m !! "product_ids"); cbn);
    try destruct (py_in feed _); eauto.
Qed.

Lemma build_subscription_without_feed (c : client) (m : gmap string json) :
  m !! "event" = Some (JStr "subscribed") ∨
  m !! "event" = Some (JStr "unsubscribed") →
  m !! "feed" = None →
  __build_subscription c (JObj m) = Raise missing_attributes.
Proof.
  intros Hev Hfeed. unfold __build_subscription, mbind, res_bind. cbn.
  rewrite Hfeed. by destruct Hev as [-> | ->].
Qed.

Lemma consumed_ack (m : gmap string json) (name : string) :
  m !! "event" = Some (JStr name) → name ≠ "challenge" → consumed m = false.
Proof.
  intros Hev Hne. unfold consumed. rewrite Hev.
  rewrite py_eqb_str_ne; [done|congruence].
Qed.

(** what a frame that is handled without an exception hands to the
    callback *)
Lemma on_frame_output (c : client) (m : gmap string json) (w w' : ws) out :
  on_frame c (JObj m) w = (Ok out, w') →
  out = if consumed m then [] else [JObj m].
Proof.
  rewrite on_frame_object. unfold consumed.
  destruct (m !! "event") as [ev|]; [|by intros [= <- <-]].
  destruct (py_eqb ev (JStr "challenge") && _).
  { destruct (__handle_new_challenge c (JObj m) w) as [[] ?]; by intros [=]. }
  destruct (py_eqb ev (JStr "subscribed")).
  { destruct (__append_subscription c (JObj m) w) as [[] ?]; by intros [=]. }
  destruct (py_eqb ev (JStr "unsubscribed")).
  { destruct (__remove_subscription c (JObj m) w) as [[] ?]; by intros [=]. }
  by intros [=].
Qed.

Lemma exec_cons (c : client) (s : sys) l ls :
  exec c s (l :: ls) = exec c (step c s l) ls.
Proof. done. Qed.

Lemma exec_app (c : client) (s : sys) ls1 ls2 :
  exec c s (ls1 ++ ls2) = exec c (exec c s ls1) ls2.
Proof. apply foldl_app. Qed.

Lemma exec_snoc (c : client) (s : sys) ls l :
  exec c s (ls ++ [l]) = step c (exec c s ls) l.
Proof. apply foldl_snoc. Qed.

Lemma run_after_end (c : client) (s : sys) rp r inputs :
  tasks s = Some (rp, RunEnded r) → exec c s (Run <$> inputs) = s.
Proof.
  intros Ht. induction inputs as [|i inputs IH]; [done|].
  rewrite fmap_cons, exec_cons.
  replace (step c s (Run i)) with s; [apply IH|].
  cbn [step]. unfold __run. by rewrite Ht.
Qed.

(** The callback receives the frames that are not consumed, in the order
    of their arrival, up to the first frame whose handling raises. *)
Lemma receive_loop_order (c : client) (frames : list (gmap string json)) :
  ∀ s rp sock, tasks s = Some (rp, RunRecv sock) →
  ∃ k, (k ≤ length frames)%nat ∧
    trace (exec c s (frame ∘ JObj <$> frames))
    = trace s ++ (EvCallback ∘ JObj
                    <$> List.filter (λ m, negb (consumed m)) (take k frames)) ∧
    (tasks (exec c s (frame ∘ JObj <$> frames)) = Some (rp, RunRecv sock) →
     k = length frames).
Proof.
  induction frames as [|m frames IH]; intros s rp sock Ht.
  { exists 0%nat. cbn. by rewrite app_nil_r. }
  rewrite fmap_cons, exec_cons.
  change (step c s ((frame ∘ JObj) m)) with (__run c (Recv (RecvText (Some (JObj m)))) s).
  unfold __run. rewrite Ht.
  destruct (on_frame c (JObj m) (obj s)) as [[out|e] w] eqn:Hf.
  - apply on_frame_output in Hf as ->.
    destruct (IH (emit (EvCallback <$> (if consumed m then [] else [JObj m]))
                    (set_obj w s)) rp sock Ht) as (k & Hk & Htr & Hend).
    exists (S k). split; [cbn; lia|]. split; [|intros H; cbn; f_equal; auto].
    rewrite Htr. cbn [emit trace set_obj take List.filter].
    rewrite <- app_assoc. f_equal. by destruct (consumed m).
  - exists 0%nat. split; [lia|].
    unfold frame. change (λ x, Run (Recv (RecvText (Some x)))) with
      (Run ∘ (λ x, Recv (RecvText (Some x)))).
    rewrite (list_fmap_compose JObj), list_fmap_compose.
    erewrite run_after_end; [|unfold run_ended; cbn; by rewrite Ht].
    unfold run_ended. cbn. rewrite Ht. cbn. rewrite app_nil_r.
    split; [done|]. intros [=].
Qed.

(** ** Frame conditions of the methods *)

(** The methods that handle a frame assign the challenge attributes and
    the registry only. *)
Lemma build_remove_frame (c : client) msg (w : ws) :
  reconnect_num (__remove_subscription c msg w).2 = reconnect_num w ∧
  socket (__remove_subscription c msg w).2 = socket w ∧
  challenge_ready (__remove_subscription c msg w).2 = challenge_ready w ∧
  last_challenge (__remove_subscription c msg w).2 = last_challenge w ∧
  new_challenge (__remove_subscription c msg w).2 = new_challenge w.
Proof.
  destruct (__build_subscription c msg) as [sub|e] eqn:Hb.
  - by rewrite (remove_subscription_ok _ _ _ _ Hb).
  - by rewrite (remove_subscription_raise _ _ _ _ Hb).
Qed.

Lemma build_append_frame (c : client) msg (w : ws) :
  reconnect_num (__append_subscription c msg w).2 = reconnect_num w ∧
  socket (__append_subscription c msg w).2 = socket w ∧
  challenge_ready (__append_subscription c msg w).2 = challenge_ready w ∧
  last_challenge (__append_subscription c msg w).2 = last_challenge w ∧
  new_challenge (__append_subscription c msg w).2 = new_challenge w.
Proof.
  destruct (__build_subscription c msg) as [sub|e] eqn:Hb.
  - by rewrite (append_subscription_ok _ _ _ _ Hb).
  - by rewrite (append_subscription_raise _ _ _ _ Hb).
Qed.

Lemma handle_new_challenge_frame (c : client) msg (w : ws) :
  reconnect_num (__handle_new_challenge c msg w).2 = reconnect_num w ∧
  socket (__handle_new_challenge c msg w).2 = socket w ∧
  subscriptions (__handle_new_challenge c msg w).2 = subscriptions w.
Proof.
  unfold __handle_new_challenge, mbind, M_bind, lift, assign.
  destruct (py_getitem msg "message"); [|done]. cbn.
  destruct (_get_sign_challenge c a); done.
Qed.

Lemma on_frame_frame (c : client) msg (w : ws) :
  reconnect_num (on_frame c msg w).2 = reconnect_num w ∧
  socket (on_frame c msg w).2 = socket w.
Proof.
  pose proof (handle_new_challenge_frame c msg w) as (Hh1 & Hh2 & _).
  pose proof (build_append_frame c msg w) as (Ha1 & Ha2 & _).
  pose proof (build_remove_frame c msg w) as (Hr1 & Hr2 & _).
  unfold on_frame, mbind, M_bind, mret, M_ret, lift.
  destruct (py_contains msg "event") as [[]|]; cbn; [|done..].
  destruct (py_getitem msg "event") as [ev|]; cbn; [|done].
  destruct (py_eqb ev (JStr "challenge")); cbn.
  - destruct (py_contains msg "message") as [[]|]; cbn; [| |done].
    + by destruct (__handle_new_challenge c msg w) as [[] ?].
    + destruct (py_eqb ev (JStr "subscribed")).
      { by destruct (__append_subscription c msg w) as [[] ?]. }
      destruct (py_eqb ev (JStr "unsubscribed")); [|done].
      by destruct (__remove_subscription c msg w) as [[] ?].
  - destruct (py_eqb ev (JStr "subscribed")).
    { by destruct (__append_subscription c msg w) as [[] ?]. }
    destruct (py_eqb ev (JStr "unsubscribed")); [|done].
    by destruct (__remove_subscription c msg w) as [[] ?].
Qed.

(** ** Invariants of the event loop *)

Lemma attempt_inv_step (c : client) (s : sys) (l : label) :
  attempt_inv s → attempt_inv (step c s l).
Proof.
  intros Hinv. pose proof Hinv as [Hm Hn]. destruct l as [draw|input| | |msg private|i]; cbn [step].
  - rewrite run_forever_cases; unfold join.
    destruct (main_t s) eqn:Hmain.
    + destruct (tasks s) as [t|] eqn:Ht; [by specialize (Hm t eq_refl)|].
      case_match; split; cbn; intros; congruence.
    + split; cbn; intros; [done|congruence].
    + destruct (tasks s) as [t|] eqn:Ht; [|by split; rewrite ?Ht].
      destruct (raised_replay t), (raised_run t);
        try (split; cbn; intros; congruence).
      split; [done|]. by rewrite Ht.
    + exact Hinv.
  - unfold __run. destruct (tasks s) as [[rp rn]|] eqn:Ht; [|by split; rewrite ?Ht].
    specialize (Hm _ eq_refl).
    destruct rn as [| |sock|r].
    + split; cbn; intros; [done|congruence].
    + destruct input; [by split; rewrite ?Ht| | |by split; rewrite ?Ht].
      * split; cbn; intros; done.
      * unfold run_ended. rewrite Ht. split; cbn; intros; [done|congruence].
    + specialize (Hn _ _ eq_refl).
      destruct input as [| | |[|[msg|]|]]; try (split; [by rewrite ?Ht|intros; by rewrite ?Hm]).
      * pose proof (on_frame_frame c msg (obj s)) as [Hf _].
        destruct (on_frame c msg (obj s)) as [[out|e] w]; cbn in Hf.
        -- split; cbn; intros; [done|congruence].
        -- unfold run_ended. cbn. rewrite Ht.
           split; cbn; intros; [done|congruence].
      * unfold run_ended. cbn. rewrite Ht.
        split; cbn; intros; [done|congruence].
    + by split; rewrite ?Ht.
  - unfold replay_task. destruct (tasks s) as [[rp rn]|] eqn:Ht; [|by split; rewrite ?Ht].
    split; cbn; intros; [eauto|]. simplify_eq. eauto.
  - unfold zombie_task. destruct (zombies s); [by split|].
    split; cbn; intros; eauto.
  - unfold call_task. case_match; split; cbn; intros; eauto.
  - unfold resume_task. destruct (callers s !! i) as [[[? ?] ?]|]; [|by split].
    case_match; split; cbn; intros; eauto.
Qed.

Lemma attempt_inv_reachable (c : client) (s : sys) :
  reachable c s → attempt_inv s.
Proof.
  intros [script ->]. induction script as [|l script IH] using rev_ind.
  - split; cbn; intros; done.
  - rewrite exec_snoc. by apply attempt_inv_step.
Qed.

(** ** Classification of inbound frames *)

(** C8 (as stated, refuted). A frame whose event is ["challenge"] but
    which has no ["message"] is not consumed: the callback receives it. *)
Lemma challenge_without_message_is_delivered :
  trace (exec (example_client true) sys_init
           (first_connection ++ [frame bare_challenge]))
  = [EvSleep 1000; EvConnect; EvCallback bare_challenge].
Proof. vm_compute. reflexivity. Qed.

(** C8 (amended). For every inbound frame that is a JSON object: a frame
    with event ["challenge"] that carries a ["message"] is handed to the
    challenge handler and is not delivered to the callback; a frame with
    event ["subscribed"] or ["unsubscribed"] that carries a ["feed"]
    updates the registry and is then passed to the callback unmodified;
    every other frame, a ["challenge"] without ["message"] included, is
    passed to the callback unmodified and changes nothing; and the
    callback receives the frames that are not consumed in the order of
    their arrival, up to the first frame whose handling raises. *)
Theorem frames_classified (c : client) :
  (∀ m w, consumed m = true →
     on_frame c (JObj m) w
     = match __handle_new_challenge c (JObj m) w with
       | (Ok _, w') => (Ok [], w')
       | (Raise e, w') => (Raise e, w')
       end) ∧
  (∀ m w, m !! "event" = Some (JStr "subscribed") → is_Some (m !! "feed") →
     ∃ w', __append_subscription c (JObj m) w = (Ok tt, w') ∧
           on_frame c (JObj m) w = (Ok [JObj m], w')) ∧
  (∀ m w, m !! "event" = Some (JStr "unsubscribed") → is_Some (m !! "feed") →
     ∃ w', __remove_subscription c (JObj m) w = (Ok tt, w') ∧
           on_frame c (JObj m) w = (Ok [JObj m], w')) ∧
  (∀ m w, consumed m = false →
     m !! "event" ≠ Some (JStr "subscribed") →
     m !! "event" ≠ Some (JStr "unsubscribed") →
     on_frame c (JObj m) w = (Ok [JObj m], w)) ∧
  (∀ frames s rp sock, tasks s = Some (rp, RunRecv sock) →
     ∃ k, (k ≤ length frames)%nat ∧
       trace (exec c s (frame ∘ JObj <$> frames))
       = trace s ++ (EvCallback ∘ JObj
                       <$> List.filter (λ m, negb (consumed m))
                             (take k frames)) ∧
       (tasks (exec c s (frame ∘ JObj <$> frames)) = Some (rp, RunRecv sock) →
        k = length frames)).
Proof.
  repeat split.
  - intros m w Hc. rewrite on_frame_object. rewrite Hc.
    unfold consumed in Hc. by destruct (m !! "event").
  - intros m w Hev Hfeed.
    destruct (build_subscription_with_feed c m (or_introl Hev) Hfeed)
      as [sub Hb].
    eexists. split; [by apply append_subscription_ok|].
    rewrite on_frame_object, Hev, (consumed_ack m "subscribed") by done.
    rewrite py_eqb_refl. by rewrite (append_subscription_ok _ _ _ _ Hb).
  - intros m w Hev Hfeed.
    destruct (build_subscription_with_feed c m (or_intror Hev) Hfeed)
      as [sub Hb].
    eexists. split; [by apply remove_subscription_ok|].
    rewrite on_frame_object, Hev, (consumed_ack m "unsubscribed") by done.
    replace (py_eqb (JStr "unsubscribed") (JStr "subscribed")) with false by done.
    rewrite py_eqb_refl. by rewrite (remove_subscription_ok _ _ _ _ Hb).
  - intros m w Hc Hs Hu. rewrite on_frame_object, Hc.
    destruct (m !! "event") as [ev|]; [|done].
    rewrite !py_eqb_str_ne; [done| |]; congruence.
  - intros frames. apply receive_loop_order.
Qed.

Lemma frames_classified_witness :
  ∃ w', __append_subscription (example_client true) (JObj ticker_ack) ws_init
        = (Ok tt, w') ∧
        on_frame (example_client true) (JObj ticker_ack) ws_init
        = (Ok [JObj ticker_ack], w').
Proof.
  apply (proj1 (proj2 (frames_classified (example_client true)))
           ticker_ack ws_init); [done|].
  by exists (JStr "ticker").
Defined.

(** ** A malformed acknowledgement *)

(** C10. In every reachable state in which [__run] is receiving, a frame
    whose event is ["subscribed"] or ["unsubscribed"] and which has no
    ["feed"] makes the registry update raise [ValueError]; the exception
    leaves the receive loop, so the frame is neither delivered nor dropped:
    [__run] ends with that exception and its socket is closed; the join in
    [__reconnect] then reports the failure of the attempt through the
    callback and gives up the replay task, which sends nothing any more;
    and the next iteration of the reconnect loop is entered, with the
    counter at 1 and the backoff wait started. *)
Theorem malformed_ack_fails_attempt (c : client) (s : sys)
    (m : gmap string json) (rp : replay_pc) (sock : nat) (draw1 draw2 : Z) :
  reachable c s →
  tasks s = Some (rp, RunRecv sock) →
  m !! "event" = Some (JStr "subscribed") ∨
  m !! "event" = Some (JStr "unsubscribed") →
  m !! "feed" = None →
  let s1 := step c s (frame (JObj m)) in
  let s2 := step c s1 (Main draw1) in
  let s3 := step c s2 (Main draw2) in
  on_frame c (JObj m) (obj s) = (Raise missing_attributes, obj s) ∧
  tasks s1 = Some (rp, RunEnded (Raise missing_attributes)) ∧
  trace s1 = trace s ∧ obj s1 = obj s ∧ (sock ∉ opened s1) ∧
  tasks s2 = None ∧ main_t s2 = MainLoop ∧
  EvCallback (task_failure_notice "__run" missing_attributes) ∈ trace s2 ∧
  step c s2 Replay = s2 ∧
  main_t s3 = MainSleeping ∧ reconnect_num (obj s3) = 1.
Proof.
  intros Hreach Ht Hev Hfeed.
  destruct (attempt_inv_reachable c s Hreach) as [Hmain Hnum].
  specialize (Hmain _ Ht). specialize (Hnum _ _ Ht).
  pose proof (build_subscription_without_feed c m Hev Hfeed) as Hb.
  assert (Hf : on_frame c (JObj m) (obj s) = (Raise missing_attributes, obj s)).
  { rewrite on_frame_object.
    destruct Hev as [Hev|Hev]; rewrite Hev.
    - rewrite (consumed_ack m "subscribed") by done. rewrite py_eqb_refl.
      by rewrite (append_subscription_raise _ _ _ _ Hb).
    - rewrite (consumed_ack m "unsubscribed") by done.
      replace (py_eqb (JStr "unsubscribed") (JStr "subscribed")) with false by done.
      rewrite py_eqb_refl. by rewrite (remove_subscription_raise _ _ _ _ Hb). }
  intros s1 s2 s3.
  assert (Hs1 : s1 = set_tasks (Some (rp, RunEnded (Raise missing_attributes)))
                       (close sock s)).
  { subst s1. unfold frame. cbn [step]. unfold __run. rewrite Ht, Hf.
    unfold run_ended. cbn. rewrite Ht. by destruct s. }
  assert (Hs2 : s2 = set_main MainLoop
                       (set_tasks None
                          (emit (notices (rp, RunEnded (Raise missing_attributes)))
                             s1))).
  { subst s2. cbn [step]. rewrite run_forever_cases. rewrite Hs1. cbn.
    rewrite Hmain. unfold join. cbn. unfold raised_replay, raised_run. cbn.
    by destruct rp as [| | |[|]]. }
  split; [done|]. split; [by rewrite Hs1|]. split; [by rewrite Hs1|].
  split; [by rewrite Hs1|]. split.
  { rewrite Hs1. cbn. intros Hin.
    apply list_elem_of_In, filter_In in Hin as [_ Hin].
    by rewrite Nat.eqb_refl in Hin. }
  split; [by rewrite Hs2|]. split; [by rewrite Hs2|]. split.
  { rewrite Hs2. cbn. apply elem_of_app. right. unfold notices.
    apply elem_of_app. right. cbn. by left. }
  split; [by rewrite Hs2|].
  subst s3. rewrite Hs2, Hs1. cbn. rewrite Hnum. cbn. done.
Qed.

Lemma malformed_ack_fails_attempt_witness :
  tasks (exec (example_client true) sys_init first_connection)
  = Some (AwaitOpen, RunRecv 0) ∧
  feedless_ack !! "feed" = None ∧
  main_t (step (example_client true)
            (step (example_client true)
               (step (example_client true)
                  (exec (example_client true) sys_init first_connection)
                  (frame (JObj feedless_ack)))
               (Main 0))
            (Main 0)) = MainSleeping.
Proof.
  split; [reflexivity|]. split; [reflexivity|].
  apply (malformed_ack_fails_attempt (example_client true)
           (exec (example_client true) sys_init first_connection)
           feedless_ack AwaitOpen 0%nat 0 0).
  - by exists first_connection.
  - reflexivity.
  - left. reflexivity.
  - reflexivity.
Defined.

(** ** Disconnect and reconnect *)

(** The registry is assigned by the handling of a frame and by nothing
    else: no failure of a connection, no reconnect and no new socket
    changes it. *)
Lemma registry_only_changed_by_frames (c : client) (s : sys) (l : label) :
  (∀ msg, l ≠ frame msg) →
  subscriptions (obj (step c s l)) = subscriptions (obj s).
Proof.
  intros Hl. destruct l as [draw|input| | |msg private|i]; cbn [step].
  - rewrite run_forever_cases; unfold join, cancel_pending. repeat case_match; cbn; done.
  - unfold __run, run_ended.
    destruct input as [| | |[|[msg|]|]]; try (repeat case_match; cbn; done).
    by destruct (Hl msg).
  - unfold replay_task. repeat case_match; cbn; done.
  - unfold zombie_task. repeat case_match; cbn; done.
  - unfold call_task. repeat case_match; cbn; done.
  - unfold resume_task. repeat case_match; cbn; done.
Qed.

(** What the handling of a frame does to the registry: nothing, an add or
    a remove. *)
Lemma on_frame_registry (c : client) msg (w : ws) :
  subscriptions (on_frame c msg w).2 = subscriptions w ∨
  subscriptions (on_frame c msg w).2 = subscriptions (apply_op c w (Add msg)) ∨
  subscriptions (on_frame c msg w).2 = subscriptions (apply_op c w (Remove msg)).
Proof.
  pose proof (handle_new_challenge_frame c msg w) as (_ & _ & Hh).
  unfold on_frame, mbind, M_bind, mret, M_ret, lift. cbn [apply_op].
  destruct (py_contains msg "event") as [[]|]; cbn; [|by left..].
  destruct (py_getitem msg "event") as [ev|]; cbn; [|by left].
  destruct (py_eqb ev (JStr "challenge")); cbn.
  - destruct (py_contains msg "message") as [[]|]; cbn; [| |by left].
    + left. by destruct (__handle_new_challenge c msg w) as [[] ?].
    + destruct (py_eqb ev (JStr "subscribed")).
      { right. left. by destruct (__append_subscription c msg w) as [[] ?]. }
      destruct (py_eqb ev (JStr "unsubscribed")); [|by left].
      right. right. by destruct (__remove_subscription c msg w) as [[] ?].
  - destruct (py_eqb ev (JStr "subscribed")).
    { right. left. by destruct (__append_subscription c msg w) as [[] ?]. }
    destruct (py_eqb ev (JStr "unsubscribed")); [|by left].
    right. right. by destruct (__remove_subscription c msg w) as [[] ?].
Qed.

Lemma step_no_duplicates (c : client) (s : sys) (l : label) :
  no_duplicates (subscriptions (obj s)) →
  no_duplicates (subscriptions (obj (step c s l))).
Proof.
  intros Hnd.
  assert ((∀ msg, l ≠ frame msg) ∨ ∃ msg, l = frame msg) as [Hl|[msg ->]].
  { destruct l as [|[| | |[|[msg|]|]]| | | |]; try (by left). right. by exists msg. }
  { by rewrite registry_only_changed_by_frames. }
  unfold frame. cbn [step]. unfold __run, run_ended.
  destruct (tasks s) as [[rp [| |sock|r]]|] eqn:Ht; try done.
  pose proof (on_frame_registry c msg (obj s)) as Hreg.
  pose proof (apply_op_no_duplicates c (obj s) (Add msg) Hnd) as Hadd.
  pose proof (apply_op_no_duplicates c (obj s) (Remove msg) Hnd) as Hrem.
  destruct (on_frame c msg (obj s)) as [[out|e] w]; cbn in *; rewrite ?Ht; cbn;
    destruct Hreg as [->|[->| ->]]; done.
Qed.

(** In every reachable state the registry holds no two equal entries. *)
Lemma reachable_no_duplicates (c : client) (s : sys) :
  reachable c s → no_duplicates (subscriptions (obj s)).
Proof.
  intros [script ->]. induction script as [|l script IH] using rev_ind.
  - intros i j x y Hi. cbn in Hi. by rewrite lookup_nil in Hi.
  - rewrite exec_snoc. by apply step_no_duplicates.
Qed.

Lemma handle_new_challenge_keeps_ready (c : client) msg (w : ws) :
  challenge_ready w = true →
  challenge_ready (__handle_new_challenge c msg w).2 = true.
Proof.
  intros Hr. unfold __handle_new_challenge, mbind, M_bind, lift, assign.
  destruct (py_getitem msg "message"); [|done]. cbn.
  by destruct (_get_sign_challenge c a).
Qed.

Lemma on_frame_keeps_ready (c : client) msg (w : ws) :
  challenge_ready w = true → challenge_ready (on_frame c msg w).2 = true.
Proof.
  intros Hr.
  pose proof (handle_new_challenge_keeps_ready c msg w Hr) as Hh.
  pose proof (build_append_frame c msg w) as (_ & _ & Ha & _).
  pose proof (build_remove_frame c msg w) as (_ & _ & Hm & _).
  rewrite Hr in Ha, Hm.
  unfold on_frame, mbind, M_bind, mret, M_ret, lift.
  destruct (py_contains msg "event") as [[]|]; cbn; [|done..].
  destruct (py_getitem msg "event") as [ev|]; cbn; [|done].
  destruct (py_eqb ev (JStr "challenge")); cbn.
  - destruct (py_contains msg "message") as [[]|]; cbn; [| |done].
    + by destruct (__handle_new_challenge c msg w) as [[] ?].
    + destruct (py_eqb ev (JStr "subscribed")).
      { by destruct (__append_subscription c msg w) as [[] ?]. }
      destruct (py_eqb ev (JStr "unsubscribed")); [|done].
      by destruct (__remove_subscription c msg w) as [[] ?].
  - destruct (py_eqb ev (JStr "subscribed")).
    { by destruct (__append_subscription c msg w) as [[] ?]. }
    destruct (py_eqb ev (JStr "unsubscribed")); [|done].
    by destruct (__remove_subscription c msg w) as [[] ?].
Qed.

(** No step of any task clears [__challenge_ready]. *)
Lemma challenge_ready_is_never_cleared (c : client) (s : sys) (l : label) :
  challenge_ready (obj s) = true → challenge_ready (obj (step c s l)) = true.
Proof.
  intros Hr. destruct l as [draw|input| | |msg private|i]; cbn [step].
  - rewrite run_forever_cases; unfold join, cancel_pending. repeat case_match; cbn; done.
  - unfold __run, run_ended.
    destruct (tasks s) as [[rp [| |sock|r]]|] eqn:Ht; try done.
    + destruct input; cbn; rewrite ?Ht; done.
    + destruct input as [| | |[|[msg|]|]]; cbn; rewrite ?Ht; try done.
      pose proof (on_frame_keeps_ready c msg (obj s) Hr) as Hf.
      destruct (on_frame c msg (obj s)) as [[out|e] w]; cbn; rewrite ?Ht; done.
  - unfold replay_task. repeat case_match; cbn; done.
  - unfold zombie_task. repeat case_match; cbn; done.
  - unfold call_task. repeat case_match; cbn; done.
  - unfold resume_task. repeat case_match; cbn; done.
Qed.

(** C9 (the code at the failing input). A connection receives a challenge
    and the acknowledgement of a private subscription and is lost.  On the
    new socket the registry still holds the subscription and the raw and
    the signed challenge are reset, but [__challenge_ready] is still set:
    the replay sends the private subscription at once, with no challenge. *)
Theorem stale_challenge_after_reconnect :
  subscriptions (obj (exec (example_client true) sys_init lost_and_reopened))
  = [ {[ "event" := JStr "subscribe"; "feed" := JStr "fills" ]} ] ∧
  socket (obj (exec (example_client true) sys_init lost_and_reopened))
  = Some 1%nat ∧
  last_challenge (obj (exec (example_client true) sys_init lost_and_reopened))
  = JNull ∧
  new_challenge (obj (exec (example_client true) sys_init lost_and_reopened))
  = JNull ∧
  challenge_ready (obj (exec (example_client true) sys_init lost_and_reopened))
  = true ∧
  last (trace (exec (example_client true) sys_init
                 (lost_and_reopened ++ [Replay])))
  = Some (EvSend 1 PrivateMsg
            {[ "event" := JStr "subscribe"; "feed" := JStr "fills";
               "api_key" := JStr "key"; "original_challenge" := JNull;
               "signed_challenge" := JNull ]}).
Proof. repeat split; vm_compute; reflexivity. Qed.

(** ** Private send without credentials *)

(** C7 (as stated, refuted). On a client without credentials whose socket
    is not yet assigned, a private send does not fail: the call is
    suspended in its wait for the socket. *)
Lemma unauthenticated_send_waits_for_socket :
  callers (step (example_client false) sys_init (Call fills_sub true))
  = [(fills_sub, true, AwaitSocket)] ∧
  trace (step (example_client false) sys_init (Call fills_sub true))
  = [EvSleep 400].
Proof. split; vm_compute; reflexivity. Qed.

Lemma send_run_unauthenticated (c : client) (msg : gmap string json) views :
  is_auth c = false →
  (send_run c views msg true AwaitSocket).1
  = (if forallb (λ v, bool_decide (socket v.2 = None)) views
     then Suspended AwaitSocket else Raised unauthenticated) ∧
  ∃ n, (n ≤ length views)%nat ∧
       (send_run c views msg true AwaitSocket).2 = replicate n (EvSleep 400).
Proof.
  intros Hauth. induction views as [|[opened w] views [IH1 (n & Hn & IH2)]].
  { split; [done|]. by exists 0%nat. }
  cbn [send_run send_message]. destruct (socket w) as [sock|] eqn:Hs; cbn.
  - rewrite Hauth, Hs, bool_decide_eq_false_2 by done. cbn.
    split; [done|]. exists 0%nat. split; [lia|done].
  - rewrite IH1, IH2, Hs, bool_decide_eq_true_2 by done. cbn.
    split; [by destruct (forallb _ views)|].
    exists (S n). split; [lia|done].
Qed.

(** C7 (amended). On a client without credentials, a private send that is
    invoked once the socket is assigned fails at once with the
    authorization error: nothing is written to the socket, the call is not
    suspended and the state of the connection is unchanged.  While no
    socket is assigned, the call is suspended in the 400 ms poll for the
    socket; whenever it is resumed it either keeps waiting or fails with
    the same error, and it never writes to the socket. *)
Theorem private_send_needs_credentials (c : client) :
  is_auth c = false →
  (∀ opened w msg, socket w ≠ None →
     send_message c opened w msg true AwaitSocket = (Raised unauthenticated, [])) ∧
  (∀ s msg, socket (obj s) ≠ None →
     step c s (Call msg true) = emit [EvRaised unauthenticated] s) ∧
  (∀ views msg,
     (send_run c views msg true AwaitSocket).1
     = (if forallb (λ v, bool_decide (socket v.2 = None)) views
        then Suspended AwaitSocket else Raised unauthenticated) ∧
     ∀ e, e ∈ (send_run c views msg true AwaitSocket).2 → e = EvSleep 400).
Proof.
  intros Hauth.
  assert (H1 : ∀ opened w msg, socket w ≠ None →
     send_message c opened w msg true AwaitSocket = (Raised unauthenticated, [])).
  { intros opened w msg Hs. cbn. destruct (socket w); [|done]. by rewrite Hauth. }
  split; [done|]. split.
  - intros s msg Hs. cbn [step]. unfold call_task. by rewrite (H1 _ _ _ Hs).
  - intros views msg.
    destruct (send_run_unauthenticated c msg views Hauth) as (Hr & n & _ & He).
    split; [done|]. rewrite He. intros e Hin.
    by apply elem_of_replicate in Hin as [-> _].
Qed.

Lemma private_send_needs_credentials_witness :
  is_auth (example_client false) = false ∧
  send_message (example_client false) [0%nat] (set_socket (Some 0%nat) ws_init)
    fills_sub true AwaitSocket
  = (Raised unauthenticated, []).
Proof.
  split; [reflexivity|].
  by apply (private_send_needs_credentials (example_client false)).
Defined.

(** ** Private send and the challenge *)





Lemma app_same_l {A} (l evs : list A) : l = l ++ evs → evs = [].
Proof.
  intros H. apply (app_inv_head l). by rewrite app_nil_r.
Qed.

(** the events that a step appends to the trace *)
Ltac step_events :=
  cbn [trace emit set_obj set_exception_occur set_opened set_fresh set_main
       set_tasks set_event set_zombies set_callers close];
  rewrite <- ?app_assoc;
  first [ intros <-%app_inv_head | intros ->%app_same_l ];
  rewrite ?elem_of_app, ?elem_of_cons, ?elem_of_nil.









(** ** Replay of the registry *)













(** The re-sent messages of the example: the public entry as it is, the
    private entry with the credentials attached, in the order of the
    registry. *)
Example replay_example :
  (replay_run (example_client true)
     [ready_view [ticker_sub; fills_sub]; ready_view []; ready_view []]
     AwaitOpen).2
  = [EvSend 0 PublicMsg ticker_sub;
     EvSend 0 PrivateMsg
       {[ "event" := JStr "subscribe"; "feed" := JStr "fills";
          "api_key" := JStr "key"; "original_challenge" := JStr "nonce";
          "signed_challenge" := JStr "c2VjcmV0bm9uY2U=" ]}].
Proof. vm_compute. reflexivity. Qed.

(** ** Reconnect ceiling *)

Lemma send_message_uncounted (c : client) opened (w : ws) msg private pc :
  List.filter is_connect (send_message c opened w msg private pc).2 = [] ∧
  List.filter is_terminal_notice (send_message c opened w msg private pc).2 = [].
Proof.
  unfold send_message, final_send, socket_send.
  destruct pc; repeat case_match; simplify_eq; done.
Qed.

Lemma attempts_emit evs (s : sys) :
  List.filter is_connect (trace (emit evs s))
  = List.filter is_connect (trace s) ++ List.filter is_connect evs.
Proof. cbn. apply List.filter_app. Qed.

Lemma notices_emit evs (s : sys) :
  List.filter is_terminal_notice (trace (emit evs s))
  = List.filter is_terminal_notice (trace s)
    ++ List.filter is_terminal_notice evs.
Proof. cbn. apply List.filter_app. Qed.

(** the application's calls change no counter and no task of the loop *)
Lemma call_task_phase (c : client) k msg private (s : sys) :
  at_phase k s → at_phase k (call_task c msg private s).
Proof.
  intros (He & Hz & Hs). unfold at_phase, call_task, connection_attempts,
    terminal_notices in *.
  pose proof (send_message_uncounted c (opened s) (obj s) msg private AwaitSocket)
    as [Hc Hn].
  destruct (send_message c (opened s) (obj s) msg private AwaitSocket)
    as [[pc| |e] evs]; cbn in *;
    rewrite !List.filter_app, ?Hc, ?Hn, ?app_nil_r; cbn; by rewrite ?app_nil_r.
Qed.

Lemma resume_task_phase (c : client) k i (s : sys) :
  at_phase k s → at_phase k (resume_task c i s).
Proof.
  intros (He & Hz & Hs). unfold at_phase, resume_task, connection_attempts,
    terminal_notices in *.
  destruct (callers s !! i) as [[[msg private] pc]|]; [|done].
  pose proof (send_message_uncounted c (opened s) (obj s) msg private pc)
    as [Hc Hn].
  destruct (send_message c (opened s) (obj s) msg private pc)
    as [[pc'| |e] evs]; cbn in *;
    rewrite !List.filter_app, ?Hc, ?Hn, ?app_nil_r; cbn; by rewrite ?app_nil_r.
Qed.

Lemma run_failure_is_not_terminal :
  is_terminal_notice (EvCallback (task_failure_notice "__run" TransportError))
  = false.
Proof. vm_compute. reflexivity. Qed.

Lemma max_reconnect_is_terminal :
  is_terminal_notice (EvCallback max_reconnect_notice) = true.
Proof. cbn. by apply bool_decide_eq_true_2. Qed.

Ltac phase_step :=
  unfold at_phase, connection_attempts, terminal_notices in *;
  cbn [trace emit set_obj set_exception_occur set_opened set_fresh set_main
       set_tasks set_event set_zombies set_callers close obj main_t tasks
       event_set zombies exception_occur reconnect_num set_reconnect_num
       set_last_challenge set_new_challenge];
  rewrite ?List.filter_app, ?length_app;
  cbn [List.filter is_connect];
  rewrite ?run_failure_is_not_terminal, ?max_reconnect_is_terminal;
  cbn [List.filter is_terminal_notice length].

(** While every connection attempt fails, a step leaves the loop in its
    phase or, when it resumes the task the loop waits for, moves it to
    the next one. *)
Lemma failing_step (c : client) (k : nat) (s : sys) (l : label) :
  (k ≤ 6)%nat → at_phase k s → l ≠ Run ConnectOk →
  at_phase (next_phase k l) (step c s l).
Proof.
  intros Hk Hs Hl. unfold next_phase.
  assert (Hcall : ∀ msg private, resumes k (Call msg private) = false)
    by (intros; by do 6 (destruct k as [|k]; try done)).
  assert (Hres : ∀ i, resumes k (Resume i) = false)
    by (intros; by do 6 (destruct k as [|k]; try done)).
  assert (Hrep : resumes k Replay = false)
    by (by do 6 (destruct k as [|k]; try done)).
  assert (Hzom : resumes k Zombie = false)
    by (by do 6 (destruct k as [|k]; try done)).
  destruct l as [draw|input| | |msg private|i]; cbn [step].
  - destruct Hs as (He & Hz & Hs).
    destruct k as [|[|[|[|[|[|[|k]]]]]]]; [..|lia]; cbn [resumes shape] in *;
      injection Hs as Hm Ht Hn Ha Hx Ho;
      rewrite run_forever_cases; unfold join, MAX_RECONNECT_NUM; rewrite ?Hm, ?Ht, ?Hn;
      repeat match goal with
             | |- context [Z.leb ?a ?b] =>
                 let v := eval vm_compute in (Z.leb a b) in
                 change (Z.leb a b) with v
             end;
      cbn; phase_step; rewrite ?Ha, ?Hx, ?He, ?Hz, ?Hm, ?Ht, ?Hn, ?Ho; done.
  - destruct Hs as (He & Hz & Hs).
    destruct k as [|[|[|[|[|[|[|k]]]]]]]; [..|lia]; cbn [resumes shape] in *;
      injection Hs as Hm Ht Hn Ha Hx Ho;
      unfold __run, run_ended; rewrite ?Ht;
      try (destruct input as [| | |r]; try done); cbn; rewrite ?Ht;
      phase_step; rewrite ?Ha, ?Hx, ?He, ?Hz, ?Hm, ?Ht, ?Hn, ?Ho; done.
  - rewrite Hrep. destruct Hs as (He & Hz & Hs).
    destruct k as [|[|[|[|[|[|[|k]]]]]]]; [..|lia]; cbn [shape] in *;
      injection Hs as Hm Ht Hn Ha Hx Ho;
      unfold replay_task; rewrite ?Ht; cbn; rewrite ?He; cbn;
      phase_step;
      rewrite ?Ha, ?Hx, ?app_nil_r, ?Nat.add_0_r, ?He, ?Hz, ?Hm, ?Ht, ?Hn, ?Ho;
      done.
  - rewrite Hzom. destruct Hs as (He & Hz & Hs).
    unfold zombie_task. by rewrite Hz.
  - rewrite Hcall. by apply call_task_phase.
  - rewrite Hres. by apply resume_task_phase.
Qed.

Lemma next_phase_bounds (k : nat) (l : label) :
  (k ≤ 6)%nat → (k ≤ next_phase k l ≤ 6)%nat.
Proof.
  intros Hk. unfold next_phase.
  destruct k as [|[|[|[|[|[|[|k]]]]]]]; [..|lia]; destruct (resumes _ l) eqn:E;
    try lia.
  by destruct l.
Qed.

Lemma failing_exec (c : client) script :
  ∀ k s, (k ≤ 6)%nat → at_phase k s → all_connects_fail script →
  at_phase (foldl next_phase k script) (exec c s script) ∧
  (k ≤ foldl next_phase k script ≤ 6)%nat.
Proof.
  induction script as [|l script IH]; intros k s Hk Hs Hfail.
  { split; [done|]. cbn. lia. }
  apply Forall_cons in Hfail as [Hl Hfail]. rewrite exec_cons. cbn [foldl].
  pose proof (next_phase_bounds k l Hk) as Hb.
  destruct (IH (next_phase k l) (step c s l) ltac:(lia)
              (failing_step c k s l Hk Hs Hl) Hfail) as [H1 H2].
  split; [done|lia].
Qed.

(** once [__run_forever] has returned, nothing moves any more *)
Lemma done_stays (c : client) (s : sys) script :
  at_phase 6 s → at_phase 6 (exec c s script).
Proof.
  revert s. induction script as [|l script IH]; intros s Hs; [done|].
  rewrite exec_cons. apply IH.
  assert (l = Run ConnectOk ∨ l ≠ Run ConnectOk) as [->|Hl]
    by (destruct l as [|[]| | | |]; (by left) || (by right)).
  - destruct Hs as (He & Hz & Hs). injection Hs as Hm Ht Hn Ha Hx Ho.
    cbn [step]. unfold __run. rewrite Ht.
    split; [done|]. split; [done|]. cbn [shape]. congruence.
  - apply (failing_step c 6 s l); [lia|done..].
Qed.

(** The reconnect counter moves in two ways only: an iteration of the
    loop adds one, a socket that opens resets it. *)
Lemma counter_changes (c : client) (s : sys) (l : label) :
  reconnect_num (obj (step c s l)) = reconnect_num (obj s) ∨
  (∃ draw, l = Main draw ∧ main_t s = MainLoop ∧
     reconnect_num (obj (step c s l)) = reconnect_num (obj s) + 1) ∨
  (l = Run ConnectOk ∧ reconnect_num (obj (step c s l)) = 0).
Proof.
  destruct l as [draw|input| | |msg private|i]; cbn [step].
  - rewrite run_forever_cases; unfold join, cancel_pending.
    destruct (main_t s) eqn:Hm; [|left; by repeat case_match..].
    right. left. exists draw. by repeat case_match.
  - unfold __run, run_ended.
    destruct (tasks s) as [[rp [| |sock|r]]|] eqn:Ht; try by left.
    + destruct input; cbn; rewrite ?Ht; auto.
    + destruct input as [| | |[|[msg|]|]]; cbn; rewrite ?Ht; auto.
      pose proof (on_frame_frame c msg (obj s)) as [Hf _]. left.
      destruct (on_frame c msg (obj s)) as [[out|e] w]; cbn; by rewrite ?Ht.
  - left. unfold replay_task. by repeat case_match.
  - left. unfold zombie_task. by repeat case_match.
  - left. unfold call_task. by repeat case_match.
  - left. unfold resume_task. by repeat case_match.
Qed.

Lemma at_phase_init : at_phase 0 sys_init.
Proof. done. Qed.

(** C1. On every schedule on which every connection attempt fails, the
    reconnect loop makes connection attempts only until the reconnect
    counter reaches the ceiling 2: the counter, which an iteration of the
    loop increments by one and only a socket that opens resets, stays
    within the ceiling, and at most one attempt is made.  The loop has
    ended exactly when the counter is at the ceiling; then one attempt has
    been made, exactly one terminal error notice has been delivered to the
    callback and the client is marked failed, and whatever is scheduled
    afterwards adds no connection attempt and no notice.  Before that, no
    terminal notice has been delivered and the client is not marked.  And
    the loop does end on every such schedule that keeps resuming the tasks
    the loop waits for. *)
Theorem reconnect_ceiling (c : client) (script : list label) :
  all_connects_fail script →
  let s := exec c sys_init script in
  (connection_attempts s ≤ 1)%nat ∧
  0 ≤ reconnect_num (obj s) ≤ MAX_RECONNECT_NUM ∧
  (main_t s = MainDone ↔ reconnect_num (obj s) = MAX_RECONNECT_NUM) ∧
  (main_t s = MainDone →
     connection_attempts s = 1%nat ∧ terminal_notices s = 1%nat ∧
     exception_occur s = true ∧
     ∀ more, main_t (exec c s more) = MainDone ∧
             connection_attempts (exec c s more) = 1%nat ∧
             terminal_notices (exec c s more) = 1%nat) ∧
  (main_t s ≠ MainDone →
     terminal_notices s = 0%nat ∧ exception_occur s = false) ∧
  (keeps_running script = true → main_t s = MainDone) ∧
  (∀ s' l,
     reconnect_num (obj (step c s' l)) = reconnect_num (obj s') ∨
     (∃ draw, l = Main draw ∧ main_t s' = MainLoop ∧
        reconnect_num (obj (step c s' l)) = reconnect_num (obj s') + 1) ∨
     (l = Run ConnectOk ∧ reconnect_num (obj (step c s' l)) = 0)).
Proof.
  intros Hfail s.
  destruct (failing_exec c script 0%nat sys_init ltac:(lia) at_phase_init Hfail)
    as [Hs Hk].
  fold s in Hs. unfold keeps_running.
  set (k := foldl next_phase 0%nat script) in *.
  assert (Hdone : k = 6%nat → ∀ more,
            main_t (exec c s more) = MainDone ∧
            connection_attempts (exec c s more) = 1%nat ∧
            terminal_notices (exec c s more) = 1%nat).
  { intros Hk6 more. rewrite Hk6 in Hs.
    destruct (done_stays c s more Hs) as (_ & _ & Hm).
    by injection Hm as -> _ _ -> -> _. }
  destruct Hs as (_ & _ & Hs). unfold MAX_RECONNECT_NUM.
  destruct k as [|[|[|[|[|[|[|k]]]]]]]; [..|lia]; cbn [shape] in Hs;
    injection Hs as Hm Ht Hn Ha Hx Ho; rewrite Hm, Hn, Ha, Hx, Ho;
    (split; [lia|]); (split; [lia|]);
    (split; [split; intros; (done || lia)|]);
    (split; [intros; first [done | split_and!; [done..|by apply Hdone]]|]);
    (split; [intros; done|]);
    (split; [intros; done|apply counter_changes]).
Qed.

Lemma reconnect_ceiling_witness :
  all_connects_fail failing_schedule ∧
  main_t (exec (example_client true) sys_init failing_schedule) = MainDone.
Proof.
  assert (Hfail : all_connects_fail failing_schedule)
    by (repeat constructor; done).
  split; [exact Hfail|].
  by apply (reconnect_ceiling (example_client true) failing_schedule Hfail).
Defined.

(** The run of the example: one backoff wait, one connection attempt, the
    notice of its failure, the terminal notice. *)
Example failing_schedule_trace :
  trace (exec (example_client true) sys_init failing_schedule)
  = [EvSleep 1000; EvConnect;
     EvCallback (task_failure_notice "__run" TransportError);
     EvCallback max_reconnect_notice].
Proof. vm_compute. reflexivity. Qed.

(** * Further properties of the connection manager *)

(** ** The reconnect loop on every schedule *)
Lemma loop_inv_step (c : client) (s : sys) (l : label) :
  loop_inv s → loop_inv (step c s l).
Proof.
  unfold loop_inv, MAX_RECONNECT_NUM.
  destruct l as [draw|input| | |msg private|i]; cbn [step].
  - rewrite run_forever_cases. unfold join, cancel_pending, MAX_RECONNECT_NUM.
    destruct (main_t s) eqn:Hm; intros (Ht & Hn & Hex).
    + destruct (Z.leb_spec 2 (reconnect_num (obj s) + 1)); cbn;
        split_and!; try first [done | lia].
    + cbn. split_and!; try first [done | lia | by eauto].
    + destruct Ht as [t Ht]. rewrite Ht.
      destruct (raised_replay t), (raised_run t), t.2; cbn; rewrite ?Hm, ?Ht; cbn;
        split_and!; try first [done | lia | by eauto].
    + by rewrite Hm.
  - unfold __run, run_ended.
    destruct (tasks s) as [[rp [| |sock|r]]|] eqn:Ht; [..|by rewrite Ht]; cbn.
    + destruct (main_t s); rewrite ?Ht; intros (? & ? & ?);
        split_and!; try first [done | lia | by eauto].
    + destruct input; cbn; rewrite ?Ht; try done;
        destruct (main_t s); cbn; rewrite ?Ht; intros (? & ? & ?);
        split_and!; try first [done | lia | by eauto].
    + destruct input as [| | |[|[msg|]|]]; cbn; rewrite ?Ht; try done.
      * pose proof (on_frame_frame c msg (obj s)) as [Hf _].
        destruct (on_frame c msg (obj s)) as [[out|e] w]; cbn in *;
          rewrite ?Ht, ?Hf; cbn; destruct (main_t s); intros (? & ? & ?);
          split_and!; try first [done | lia | by eauto].
      * cbn. destruct (main_t s); intros (? & ? & ?);
          split_and!; try first [done | lia | by eauto].
    + by rewrite ?Ht.
  - unfold replay_task. destruct (tasks s) as [[rp rn]|] eqn:Ht; [|by rewrite ?Ht]. cbn.
    destruct (main_t s); intros (? & ? & ?); split_and!; try first [done | lia | by eauto].
  - unfold zombie_task. by destruct (zombies s).
  - unfold call_task. by destruct (send_message _ _ _ _ _ _).1.
  - unfold resume_task. destruct (callers s !! i) as [[[m p] pc]|]; [|done].
    by destruct (send_message _ _ _ _ _ _).1.
Qed.

Lemma loop_inv_reachable (c : client) (s : sys) : reachable c s → loop_inv s.
Proof.
  intros [script ->]. induction script as [|l script IH] using rev_ind.
  - unfold loop_inv. cbn. split_and!; first [done | lia].
  - rewrite exec_snoc. by apply loop_inv_step.
Qed.

Lemma done_is_final (c : client) (s : sys) (l : label) :
  loop_inv s → main_t s = MainDone →
  main_t (step c s l) = MainDone ∧
  connection_attempts (step c s l) = connection_attempts s.
Proof.
  unfold loop_inv. intros Hinv Hm. rewrite Hm in Hinv.
  destruct Hinv as (Ht & _ & _). unfold connection_attempts.
  destruct l as [draw|input| | |msg private|i]; cbn [step].
  - by rewrite run_forever_cases, Hm.
  - unfold __run. by rewrite Ht.
  - unfold replay_task. by rewrite Ht.
  - unfold zombie_task. destruct (zombies s); [done|]. cbn.
    by rewrite List.filter_app, app_nil_r.
  - unfold call_task.
    pose proof (send_message_uncounted c (opened s) (obj s) msg private
                  AwaitSocket) as [Hc _].
    destruct (send_message c (opened s) (obj s) msg private AwaitSocket)
      as [[pc| |e] evs]; cbn in *;
      by rewrite !List.filter_app, ?Hc, ?app_nil_r.
  - unfold resume_task.
    destruct (callers s !! i) as [[[m private] pc]|]; [|done].
    pose proof (send_message_uncounted c (opened s) (obj s) m private pc)
      as [Hc _].
    destruct (send_message c (opened s) (obj s) m private pc)
      as [[pc'| |e] evs]; cbn in *;
      by rewrite !List.filter_app, ?Hc, ?app_nil_r.
Qed.

Lemma done_forever (c : client) (more : list label) :
  ∀ s, loop_inv s → main_t s = MainDone →
  main_t (exec c s more) = MainDone ∧
  connection_attempts (exec c s more) = connection_attempts s.
Proof.
  induction more as [|l more IH]; intros s Hinv Hm; [done|].
  rewrite exec_cons.
  destruct (done_is_final c s l Hinv Hm) as [Hm' Ha].
  destruct (IH _ (loop_inv_step c s l Hinv) Hm') as [H1 H2].
  split; [done|congruence].
Qed.

(** X1. On every schedule, whatever the connections do, the reconnect
    counter stays between 0 and the ceiling 2; the client is marked failed
    exactly when [__run_forever] has returned, which is exactly when the
    counter is at the ceiling; the tasks of an attempt exist exactly while
    [__reconnect] waits for them; and once [__run_forever] has returned it
    stays so and no further connection attempt is made. *)
Theorem reconnect_counter_invariant (c : client) (script : list label) :
  let s := exec c sys_init script in
  0 ≤ reconnect_num (obj s) ≤ MAX_RECONNECT_NUM ∧
  (exception_occur s = true ↔ main_t s = MainDone) ∧
  (reconnect_num (obj s) = MAX_RECONNECT_NUM ↔ main_t s = MainDone) ∧
  (is_Some (tasks s) ↔ main_t s = MainWaiting) ∧
  (main_t s = MainDone → ∀ more,
     main_t (exec c s more) = MainDone ∧
     connection_attempts (exec c s more) = connection_attempts s).
Proof.
  intros s.
  assert (Hinv : loop_inv s) by (apply (loop_inv_reachable c); by exists script).
  split_and!; [..|intros Hm more; by apply done_forever];
    unfold loop_inv, MAX_RECONNECT_NUM in *;
    destruct (main_t s); destruct Hinv as (Ht & Hn & Hex);
    try rewrite Ht; try rewrite Hex; try (split; intros);
    try first [done | lia | by apply is_Some_None in H
              | by match goal with H : is_Some None |- _ =>
                     apply is_Some_None in H end ].
Qed.

Lemma first_attempt_wait (draw : Z) :
  0 ≤ draw < 2 ^ 53 → 1 ≤ __get_reconnect_wait 1 draw ≤ 2.
Proof.
  intros Hd. unfold __get_reconnect_wait, Float.mul_int, Float.add_int.
  change (Z.min (60 * 3) (2 ^ 1 - 1)) with 1.
  assert (H106 : 2 ^ 53 * 2 ^ 53 = 2 ^ 106) by (rewrite <- Z.pow_add_r; lia).
  assert (Hone : Float.one = 2 ^ 53) by reflexivity.
  assert (0 < 2 ^ 53) by (apply Z.pow_pos_nonneg; lia).
  pose proof (FloatFacts.round53_bounds (draw * 1) 0 1
                ltac:(nia) ltac:(nia)) as Hp.
  set (p := Float.round53 (draw * 1)) in *.
  pose proof (FloatFacts.round53_bounds (p + 1 * Float.one) 1 2
                ltac:(nia) ltac:(nia)) as Ha.
  apply FloatFacts.py_round_bounds. lia.
Qed.

(** X2. The backoff never grows.  A sleep of the reconnect loop is always
    computed for the attempt count 1, because the counter is 0 whenever an
    attempt is going to be made: for every draw of [random()] the wait
    before a connection attempt is 1 or 2 seconds. *)
Theorem backoff_never_grows (c : client) (script : list label) (draw : Z) :
  0 ≤ draw < 2 ^ 53 →
  let s := exec c sys_init script in
  ∀ evs ms,
    trace (step c s (Main draw)) = trace s ++ evs → EvSleep ms ∈ evs →
    ms = 1000 * __get_reconnect_wait 1 draw ∧ (ms = 1000 ∨ ms = 2000).
Proof.
  intros Hd s evs ms.
  assert (Hinv : loop_inv s) by (apply (loop_inv_reachable c); by exists script).
  pose proof (first_attempt_wait draw Hd) as Hw.
  cbn [step]. rewrite run_forever_cases.
  unfold loop_inv, join, cancel_pending, notices, MAX_RECONNECT_NUM in *.
  destruct (main_t s); destruct Hinv as (Ht & Hn & Hex).
  - destruct (Z.leb_spec 2 (reconnect_num (obj s) + 1)) as [|Hlt];
      step_events; intros Hin; destruct_or?; simplify_eq; try done.
    assert (reconnect_num (obj s) + 1 = 1) as -> by lia. lia.
  - step_events. done.
  - repeat case_match; step_events; intros Hin; destruct_or?; simplify_eq; done.
  - step_events. done.
Qed.

Lemma backoff_never_grows_witness :
  1000 * __get_reconnect_wait 1 (2 ^ 52) = 1000 ∨
  1000 * __get_reconnect_wait 1 (2 ^ 52) = 2000.
Proof.
  assert (Hd : 0 ≤ 2 ^ 52 < 2 ^ 53) by lia.
  apply (proj2 (backoff_never_grows (example_client true) [] (2 ^ 52) Hd
                  [EvSleep (1000 * __get_reconnect_wait 1 (2 ^ 52))]
                  (1000 * __get_reconnect_wait 1 (2 ^ 52))
                  eq_refl ltac:(by left))).
Defined.


Lemma reopening_round_step (c : client) (draw : Z) (s : sys) :
  main_t s = MainLoop → tasks s = None → reconnect_num (obj s) = 0 →
  exception_occur s = false →
  let s' := exec c s (reopening_round draw) in
  main_t s' = MainLoop ∧ tasks s' = None ∧ reconnect_num (obj s') = 0 ∧
  exception_occur s' = false ∧
  connection_attempts s' = S (connection_attempts s) ∧
  subscriptions (obj s') = subscriptions (obj s).
Proof.
  destruct s as [[n lc nc cr so subs] ex op fr mt tk ev zs cs tr].
  cbn. intros -> -> -> ->.
  unfold connection_attempts.
  cbn -[__get_reconnect_wait Z.mul].
  change (MAX_RECONNECT_NUM <=? 0 + 1) with false.
  cbn -[__get_reconnect_wait Z.mul].
  rewrite !List.filter_app. cbn. rewrite !length_app. cbn.
  split_and!; try done. lia.
Qed.

(** X3. The ceiling bounds consecutive failures only.  A socket that
    opens resets the counter, so a connection that opens and is lost again
    is retried without bound: after as many such rounds as one likes, the
    client has made as many connection attempts, is back at the start of
    the loop with the counter at 0 and is not marked failed. *)
Theorem reconnects_without_bound (c : client) (draws : list Z) :
  let s := exec c sys_init (concat (reopening_round <$> draws)) in
  connection_attempts s = length draws ∧
  main_t s = MainLoop ∧ exception_occur s = false ∧
  reconnect_num (obj s) = 0.
Proof.
  induction draws as [|draw draws IH] using rev_ind; [done|].
  rewrite fmap_app, concat_app, exec_app. cbn [fmap list_fmap concat].
  rewrite app_nil_r, length_app. cbn [length].
  destruct IH as (Ha & Hm & Hex & Hn).
  assert (Ht : tasks (exec c sys_init (concat (reopening_round <$> draws))) = None).
  { assert (Hinv : loop_inv (exec c sys_init (concat (reopening_round <$> draws))))
      by (apply (loop_inv_reachable c); by eexists).
    unfold loop_inv in Hinv. rewrite Hm in Hinv. by destruct Hinv. }
  destruct (reopening_round_step c draw _ Hm Ht Hn Hex)
    as (Hm' & _ & Hn' & Hex' & Ha' & _).
  split_and!; try done. lia.
Qed.


(** X4. A frame that parses to a value that is not a JSON object: a
    number, a boolean or [null] makes the receive loop raise [TypeError]
    ([in] on a value that is no container); so does a list that has the
    element ["event"] and a string that contains ["event"] (the index
    [msg["event"]] is not an integer); any other list or string is passed
    to the callback.  The attributes are unchanged.  When the handling
    raises, [__run] ends with the error, its socket is closed and nothing
    is delivered. *)
Theorem non_object_frames (c : client) (msg : json) (w : ws) :
  (∀ m, msg ≠ JObj m) →
  on_frame c msg w =
    (match msg with
     | JArr l => if py_in (JStr "event") l then Raise TypeError else Ok [msg]
     | JStr text =>
         if String.index 0 "event" text is Some _ then Raise TypeError
         else Ok [msg]
     | _ => Raise TypeError
     end, w) ∧
  ∀ s rp sock,
    tasks s = Some (rp, RunRecv sock) →
    (on_frame c msg (obj s)).1 = Raise TypeError →
    tasks (step c s (frame msg)) = Some (rp, RunEnded (Raise TypeError)) ∧
    (sock ∉ opened (step c s (frame msg))) ∧
    trace (step c s (frame msg)) = trace s.
Proof.
  intros Hobj.
  assert (Hf : on_frame c msg w =
    (match msg with
     | JArr l => if py_in (JStr "event") l then Raise TypeError else Ok [msg]
     | JStr text =>
         if String.index 0 "event" text is Some _ then Raise TypeError
         else Ok [msg]
     | _ => Raise TypeError
     end, w)).
  { unfold on_frame, mbind, M_bind, mret, M_ret, lift.
    destruct msg as [| | |text|l|m]; cbn; try done.
    - by destruct (String.index 0 "event" text).
    - by destruct (py_in (JStr "event") l).
    - by destruct (Hobj m). }
  split; [done|]. intros s rp sock Ht Hr.
  unfold frame. cbn [step]. unfold __run. rewrite Ht.
  destruct (on_frame c msg (obj s)) as [[out|e] w'] eqn:Hon; cbn in Hr; [done|].
  injection Hr as ->. unfold run_ended. cbn. rewrite Ht. cbn.
  split; [done|]. split; [|done].
  rewrite list_elem_of_In, filter_In. intros [_ Hne].
  by rewrite Nat.eqb_refl in Hne.
Qed.

Lemma non_object_frames_witness :
  on_frame (example_client true) (JInt 5) ws_init = (Raise TypeError, ws_init).
Proof.
  apply (proj1 (non_object_frames (example_client true) (JInt 5) ws_init
                  ltac:(done))).
Defined.

Lemma filter_differs_twice (sub : gmap string json) subs :
  List.filter (differs sub) (List.filter (differs sub) subs ++ [sub])
  = List.filter (differs sub) subs.
Proof.
  rewrite List.filter_app. cbn. unfold differs at 3. rewrite py_eqb_refl. cbn.
  rewrite app_nil_r. induction subs as [|x subs IH]; [done|]. cbn.
  destruct (differs sub x) eqn:Hd; cbn; rewrite ?Hd; by rewrite IH.
Qed.

Lemma filter_differs_idem (sub : gmap string json) subs :
  List.filter (differs sub) (List.filter (differs sub) subs)
  = List.filter (differs sub) subs.
Proof.
  induction subs as [|x subs IH]; [done|]. cbn.
  destruct (differs sub x) eqn:Hd; cbn; rewrite ?Hd; by rewrite IH.
Qed.

(** X5. How the registry operations compose, for one acknowledgement:
    adding twice is adding once, removing twice is removing once, removing
    after adding is removing, and adding after removing is adding. *)
Theorem registry_ops_compose (c : client) (w : ws) (msg : json) :
  apply_op c (apply_op c w (Add msg)) (Add msg) = apply_op c w (Add msg) ∧
  apply_op c (apply_op c w (Remove msg)) (Remove msg)
  = apply_op c w (Remove msg) ∧
  apply_op c (apply_op c w (Add msg)) (Remove msg)
  = apply_op c w (Remove msg) ∧
  apply_op c (apply_op c w (Remove msg)) (Add msg) = apply_op c w (Add msg).
Proof.
  unfold apply_op. destruct (__build_subscription c msg) as [sub|e] eqn:Hb.
  - rewrite !(append_subscription_ok _ _ _ _ Hb),
      !(remove_subscription_ok _ _ _ _ Hb). cbn.
    rewrite ?(append_subscription_ok _ _ _ _ Hb),
      ?(remove_subscription_ok _ _ _ _ Hb). cbn.
    unfold set_subscriptions. cbn.
    by rewrite !filter_differs_twice, !filter_differs_idem.
  - rewrite !(append_subscription_raise _ _ _ _ Hb),
      !(remove_subscription_raise _ _ _ _ Hb). cbn.
    by rewrite ?(append_subscription_raise _ _ _ _ Hb),
      ?(remove_subscription_raise _ _ _ _ Hb).
Qed.

Lemma build_subscription_event (c : client) (m : gmap string json) :
  m !! "event" = Some (JStr "subscribed") ∨
  m !! "event" = Some (JStr "unsubscribed") →
  ∀ name, name = "subscribed" ∨ name = "unsubscribed" →
  __build_subscription c (JObj (with_event name m))
  = __build_subscription c (JObj m).
Proof.
  intros Hev name Hname. unfold __build_subscription, with_event.
  cbn [py_contains py_getitem].
  rewrite lookup_insert_eq.
  rewrite !(lookup_insert_ne m "event") by done.
  assert (Hin : ∀ n, n = "subscribed" ∨ n = "unsubscribed" →
            py_in (JStr n) [JStr "subscribed"; JStr "unsubscribed"] = true)
    by (by intros n [->| ->]).
  assert (Hn : ∃ n, m !! "event" = Some (JStr n) ∧
                    (n = "subscribed" ∨ n = "unsubscribed"))
    by (destruct Hev; eauto).
  destruct Hn as (n & -> & Hn). cbn [mbind res_bind].
  rewrite (bool_decide_eq_true_2 (is_Some (Some (JStr name)))) by done.
  rewrite (bool_decide_eq_true_2 (is_Some (Some (JStr n)))) by done.
  cbn [negb].
  by rewrite (Hin _ Hname), (Hin _ Hn).
Qed.

(** X6. Subscribe, then unsubscribe.  The event of an acknowledgement is
    not part of the entry built from it, so the ["unsubscribed"]
    acknowledgement of a subscription builds the entry of its
    ["subscribed"] acknowledgement.  On a registry without that entry, the
    first frame appends the entry, the second removes it again: both are
    passed to the callback and the attributes are those before the two
    frames. *)
Theorem subscribe_then_unsubscribe (c : client) (m : gmap string json)
    (w : ws) (sub : gmap string json) :
  m !! "event" = Some (JStr "subscribed") →
  __build_subscription c (JObj m) = Ok sub →
  (∀ x, x ∈ subscriptions w → ¬ same_entry x sub) →
  __build_subscription c (JObj (with_event "unsubscribed" m)) = Ok sub ∧
  on_frame c (JObj m) w
  = (Ok [JObj m], set_subscriptions (subscriptions w ++ [sub]) w) ∧
  on_frame c (JObj (with_event "unsubscribed" m)) (on_frame c (JObj m) w).2
  = (Ok [JObj (with_event "unsubscribed" m)], w).
Proof.
  intros Hev Hb Habs.
  assert (Hb' : __build_subscription c (JObj (with_event "unsubscribed" m))
                = Ok sub).
  { rewrite build_subscription_event; [done|by left|by right]. }
  split; [done|].
  assert (H1 : on_frame c (JObj m) w
    = (Ok [JObj m], set_subscriptions (subscriptions w ++ [sub]) w)).
  { rewrite on_frame_object, Hev.
    rewrite (consumed_ack m "subscribed") by done.
    rewrite py_eqb_refl, (append_subscription_ok _ _ _ _ Hb).
    by rewrite (filter_absent _ _ Habs). }
  split; [done|]. rewrite H1. cbn [snd].
  rewrite on_frame_object. unfold with_event at 1. rewrite lookup_insert_eq.
  rewrite (consumed_ack _ "unsubscribed")
    by (done || apply lookup_insert_eq).
  rewrite (py_eqb_str_ne (JStr "unsubscribed") "subscribed") by done.
  rewrite py_eqb_refl, (remove_subscription_ok _ _ _ _ Hb'). cbn.
  rewrite List.filter_app, (filter_absent _ _ Habs). cbn.
  unfold differs. rewrite py_eqb_refl. cbn. rewrite app_nil_r.
  by destruct w.
Qed.

Lemma subscribe_then_unsubscribe_witness :
  on_frame (example_client true) (JObj (with_event "unsubscribed" ticker_ack))
    (on_frame (example_client true) (JObj ticker_ack) ws_init).2
  = (Ok [JObj (with_event "unsubscribed" ticker_ack)], ws_init).
Proof.
  apply (subscribe_then_unsubscribe (example_client true) ticker_ack ws_init
           ticker_sub).
  - reflexivity.
  - vm_compute. reflexivity.
  - intros x Hx. cbn in Hx. by apply elem_of_nil in Hx.
Defined.
